(** * The Hadamard pulse-optimisation notebook

    A shallow embedding of [examples/control-pulseoptim-Hadamard.ipynb].
    The notebook is straight-line Python: it binds the problem parameters,
    calls [cpo.optimize_pulse_unitary] of the QuTiP control library, and
    reports and plots the returned result.

    The code cells become computations in a small state-and-exception monad
    over the notebook's global namespace (a [gmap] from names to values) and
    a trace of the observable operations.  The optimiser itself is not part
    of the repository: a run is a function of the library, the properties
    hold for every library, and what two of them need of it is stated as
    explicit hypotheses.

    Numbers: a Python [int] is a [Z]; a Python [float] is read as the real
    number it denotes, so the infinities and NaN are outside the model.
    The operators are the mathematical ones, with exact complex entries
    (pairs of reals); what float64 rounding does to them is stated apart,
    over the float64 numbers themselves. *)

From stdpp Require Import gmap strings list pretty.
From Stdlib Require Import Ascii Reals Lra ZArith.
From Stdlib Require Floats.

Set Default Proof Using "Type".
Set Warnings "-register-all".

(** ** Complex numbers and dense matrices *)

Module Cplx.

Definition C : Type := R * R.

Definition of_R (x : R) : C := (x, 0%R).
Definition zero : C := of_R 0.
Definition one : C := of_R 1.

Definition add (a b : C) : C := ((a.1 + b.1)%R, (a.2 + b.2)%R).
Definition mul (a b : C) : C :=
  ((a.1 * b.1 - a.2 * b.2)%R, (a.1 * b.2 + a.2 * b.1)%R).
Definition conj (a : C) : C := (a.1, (- a.2)%R).
Definition scale (k : R) (a : C) : C := ((k * a.1)%R, (k * a.2)%R).

End Cplx.

Module Mat.
Import Cplx.

(** A dense matrix is the list of its rows. *)
Definition matrix : Type := list (list C).

Definition n_rows (m : matrix) : nat := length m.
Definition n_cols (m : matrix) : nat :=
  match m with [] => 0 | r :: _ => length r end.
Definition shape (m : matrix) : nat * nat := (n_rows m, n_cols m).

Definition entry (m : matrix) (i j : nat) : C := nth j (nth i m []) zero.

Definition table (r c : nat) (f : nat -> nat -> C) : matrix :=
  map (fun i => map (fun j => f i j) (seq 0 c)) (seq 0 r).

Definition eye (n : nat) : matrix :=
  table n n (fun i j => if Nat.eqb i j then one else zero).

(** Conjugate transpose. *)
Definition dag (m : matrix) : matrix :=
  table (n_cols m) (n_rows m) (fun i j => conj (entry m j i)).

Definition dot (n : nat) (f g : nat -> C) : C :=
  foldr (fun k acc => add (mul (f k) (g k)) acc) zero (seq 0 n).

Definition mmul (a b : matrix) : matrix :=
  table (n_rows a) (n_cols b)
        (fun i j => dot (n_cols a) (fun k => entry a i k) (fun k => entry b k j)).

Definition hermitian (m : matrix) : Prop := dag m = m.

Definition unitary (m : matrix) : Prop :=
  n_rows m = n_cols m /\
  mmul (dag m) m = eye (n_rows m) /\
  mmul m (dag m) = eye (n_rows m).

End Mat.

(** ** The QuTiP operators the notebook builds

    [Qobj] and its constructors belong to the QuTiP library and are absent
    from the repository.  They are modelled as the operators the spec
    names, with exact entries.  The library holds them in float64: its
    entries 0 and 1 are exact, its Hadamard entries are [1/sqrt 2] rounded,
    which the system configuration logged under the optimisation cell
    prints as 0.70710678. *)

Module qutip.
Import Cplx Mat.

Record Qobj : Type := mkQobj {
  data : matrix;
  dims : list nat * list nat
}.

Definition qshape (q : Qobj) : nat * nat := shape (data q).

(** Modelled from the spec: [sigmaz()], absent from the repository, is the
    fixed (drift) Hamiltonian sigma-z. *)
Definition sigmaz : Qobj :=
  mkQobj [[of_R 1; of_R 0]; [of_R 0; of_R (-1)]] ([2], [2]).

(** Modelled from the spec: [sigmax()], absent from the repository, is the
    variable (control) Hamiltonian sigma-x. *)
Definition sigmax : Qobj :=
  mkQobj [[of_R 0; of_R 1]; [of_R 1; of_R 0]] ([2], [2]).

(** Modelled from the spec: [identity(N)], absent from the repository, is
    the identity operator of dimension [N]. *)
Definition identity (N : nat) : Qobj := mkQobj (eye N) ([N], [N]).

(** Number of one bits, for the sign pattern of the Hadamard matrix. *)
Fixpoint popcount (p : positive) : nat :=
  match p with
  | xH => 1
  | xO q => popcount q
  | xI q => S (popcount q)
  end.

Definition hamming (n : N) : nat :=
  match n with N0 => 0 | Npos p => popcount p end.

Definition sign (k : nat) : C := if Nat.even k then of_R 1 else of_R (-1).

(** Modelled from the spec: [hadamard_transform(N)], absent from the
    repository, is the Hadamard gate on [N] qubits: the [2^N] by [2^N]
    matrix with entries [2^(-N/2) * (-1)^(i.j)], [i.j] the bitwise inner
    product.  The entries are the exact reals; the library's are their
    float64 roundings. *)
Definition hadamard_transform (N : nat) : Qobj :=
  mkQobj
    (table (2 ^ N) (2 ^ N)
           (fun j i =>
              scale (/ sqrt (2 ^ N))
                    (sign (hamming (N.land (N.of_nat i) (N.of_nat j))))))
    (repeat 2 N, repeat 2 N).

End qutip.

(** ** Python values *)

Module np.

(** A two-dimensional [ndarray] of floats: its shape and its buffer in
    row-major order. *)
Record ndarray2 : Type := mkArray2 {
  shape0 : nat;
  shape1 : nat;
  buf : list R
}.

Definition get (a : ndarray2) (i j : nat) : R := nth (i * shape1 a + j) (buf a) 0%R.

(** Python index normalisation along an axis of length [n]: negative
    indices count from the end, anything out of range is an [IndexError]
    (here [None]). *)
Definition norm_index (n : nat) (i : Z) : option nat :=
  let k := if (i <? 0)%Z then (i + Z.of_nat n)%Z else i in
  if ((0 <=? k)%Z && (k <? Z.of_nat n)%Z)%bool then Some (Z.to_nat k) else None.

(** [a[:, j]] *)
Definition column (a : ndarray2) (j : Z) : option (list R) :=
  match norm_index (shape1 a) j with
  | Some j' => Some (map (fun i => get a i j') (seq 0 (shape0 a)))
  | None => None
  end.

(** [a[i, j]] *)
Definition item (a : ndarray2) (i j : Z) : option R :=
  match norm_index (shape0 a) i, norm_index (shape1 a) j with
  | Some i', Some j' => Some (get a i' j')
  | _, _ => None
  end.

(** The pieces [hstack] is given here: one-dimensional arrays and scalars.
    A scalar is promoted to a one-element array, then all are
    concatenated into a new array. *)
Inductive piece : Type :=
| Arr (xs : list R)
| Scalar (x : R).

Definition atleast_1d (p : piece) : list R :=
  match p with Arr xs => xs | Scalar x => [x] end.

Definition hstack (ps : list piece) : list R := concat (map atleast_1d ps).

End np.

(** The statistics object of a result; [report()] prints its lines. *)
Record Stats : Type := mkStats { report_lines : list string }.

(** The fields of the library's result object that the notebook touches.
    The library's class has further attributes; none of them is read. *)
Record OptimResult : Type := mkResult {
  stats : Stats;
  evo_full_final : qutip.Qobj;
  fid_err : R;
  grad_norm_final : R;
  termination_reason : string;
  num_iter : Z;
  wall_time : R;
  time : list R;
  initial_amps : np.ndarray2;
  final_amps : np.ndarray2
}.

(** Objects of other libraries that the notebook only holds on to. *)
Inductive Handle : Type :=
| HModule (name : string)
| HFunction (module name : string)
| HLogger
| HFigure
| HAxes (index : Z).

Inductive Value : Type :=
| VNone
| VBool (b : bool)
| VInt (z : Z)
| VFloat (x : R)
| VStr (s : string)
| VList (l : list Value)
| VQobj (q : qutip.Qobj)
| VArray1 (xs : list R)
| VArray2 (a : np.ndarray2)
| VStats (s : Stats)
| VTimedelta (seconds : R)
| VResult (r : OptimResult)
| VHandle (h : Handle).

Inductive PyErr : Type :=
| NameError (name : string)
| AttributeError (attr : string)
| IndexError
| TypeError
| ValueError
| OverflowError
| LibraryError (msg : string).

(** [str(v)] for the values the notebook formats into the file suffix. *)
Definition str (v : Value) : PyErr + string :=
  match v with
  | VStr s => inr s
  | VInt z => inr (pretty z)
  | VBool true => inr "True"
  | VBool false => inr "False"
  | VNone => inr "None"
  | _ => inl TypeError
  end.

(** [fmt.format(a1, ..., an)] for templates whose only fields are empty
    braces: each
    field takes the next argument, too few arguments raise [IndexError],
    surplus arguments are ignored. *)
Fixpoint format (fmt : string) (args : list Value) : PyErr + string :=
  match fmt with
  | EmptyString => inr EmptyString
  | String "{"%char (String "}"%char rest) =>
      match args with
      | [] => inl IndexError
      | a :: args' =>
          match str a, format rest args' with
          | inr s, inr r => inr (s +:+ r)
          | inl e, _ => inl e
          | _, inl e => inl e
          end
      end
  | String c rest =>
      match format rest args with
      | inr r => inr (String c r)
      | inl e => inl e
      end
  end.

(** [getattr(result, name)] *)
Definition getattr (r : OptimResult) (name : string) : PyErr + Value :=
  if String.eqb name "stats" then inr (VStats (stats r))
  else if String.eqb name "evo_full_final" then inr (VQobj (evo_full_final r))
  else if String.eqb name "fid_err" then inr (VFloat (fid_err r))
  else if String.eqb name "grad_norm_final" then inr (VFloat (grad_norm_final r))
  else if String.eqb name "termination_reason" then inr (VStr (termination_reason r))
  else if String.eqb name "num_iter" then inr (VInt (num_iter r))
  else if String.eqb name "wall_time" then inr (VFloat (wall_time r))
  else if String.eqb name "time" then inr (VArray1 (time r))
  else if String.eqb name "initial_amps" then inr (VArray2 (initial_amps r))
  else if String.eqb name "final_amps" then inr (VArray2 (final_amps r))
  else inl (AttributeError name).

(** [datetime.timedelta(seconds=x)] for a float [x].  A [timedelta] spans
    at most 999999999 days either way: the call raises [OverflowError]
    unless [-86399999913600 <= x < 86400000000000].  (Beyond [2^46] the
    float64 numbers are multiples of [2^-6] seconds, so rounding to
    microseconds moves no float across either bound.) *)
Module datetime.

Definition min_seconds : R := -86399999913600.
Definition max_seconds : R := 86400000000000.

Definition in_range (x : R) : bool :=
  if Rle_dec min_seconds x then (if Rlt_dec x max_seconds then true else false)
  else false.

Definition timedelta (seconds : Value) : PyErr + Value :=
  match seconds with
  | VFloat x => if in_range x then inr (VTimedelta x) else inl OverflowError
  | _ => inl TypeError
  end.

End datetime.

(** Calling one of the four QuTiP constructors the notebook imports, by the
    function the callee is: [sigmaz()], [sigmax()], [identity(N)],
    [hadamard_transform(N)].  A value that is no function is not callable,
    and a constructor given other arguments than these rejects them. *)
Definition construct (f : Value) (args : list Value) : PyErr + Value :=
  match f with
  | VHandle (HFunction m name) =>
      if String.eqb m "qutip" && String.eqb name "sigmaz" then
        match args with [] => inr (VQobj qutip.sigmaz) | _ => inl TypeError end
      else if String.eqb m "qutip" && String.eqb name "sigmax" then
        match args with [] => inr (VQobj qutip.sigmax) | _ => inl TypeError end
      else if String.eqb m "qutip" && String.eqb name "identity" then
        match args with
        | [VInt n] => inr (VQobj (qutip.identity (Z.to_nat n)))
        | _ => inl TypeError
        end
      else if String.eqb m "qutip.qip" && String.eqb name "hadamard_transform" then
        match args with
        | [VInt n] => inr (VQobj (qutip.hadamard_transform (Z.to_nat n)))
        | _ => inl TypeError
        end
      else inl TypeError
  | _ => inl TypeError
  end.

(** ** What a run of the notebook does: the world and its trace *)

(** The call [cpo.optimize_pulse_unitary(positional..., keyword=value...)]. *)
Record Call : Type := mkCall {
  positional : list Value;
  keywords : list (string * Value)
}.

(** What the library does with a call: the files it wrote, and the result
    it returned or the exception it raised. *)
Record Outcome : Type := mkOutcome {
  written : list string;
  returned : PyErr + OptimResult
}.

Definition Library : Type := Call -> Outcome.

(** Calls into matplotlib. *)
Inductive PlotCall : Type :=
| PFigure
| PAddSubplot (nrows ncols index : Z)
| PSetTitle (ax : Z) (s : string)
| PSetXlabel (ax : Z) (s : string)
| PSetYlabel (ax : Z) (s : string)
| PStep (ax : Z) (xs ys : list R) (where_ : string)
| PTightLayout
| PShow.

(** The observable operations of a run, in the order they happen.
    [EvOptimize c o] is the call [c] of the optimiser together with what the
    library did in it.  [EvPrint t args] is [print(t.format(args...))]; the
    text of floats and operators is the interpreter's business, so template
    and arguments are kept apart. *)
Inductive Event : Type :=
| EvMagic (line : string)
| EvBind (name : string)
| EvGetAttr (attr : string)
| EvOptimize (c : Call) (o : Outcome)
| EvReport (s : Stats)
| EvPrint (template : string) (args : list Value)
| EvPlot (p : PlotCall)
| EvVersionTable.

Record World : Type := mkWorld {
  globals : gmap string Value;
  trace : list Event
}.

Definition Py (A : Type) : Type := World -> (PyErr + A) * World.

#[global] Instance Py_ret : MRet Py := fun A (x : A) w => (inr x, w).

#[global] Instance Py_bind : MBind Py :=
  fun A B (f : A -> Py B) (m : Py A) w =>
    match m w with
    | (inr x, w') => f x w'
    | (inl e, w') => (inl e, w')
    end.

Definition raise {A : Type} (e : PyErr) : Py A := fun w => (inl e, w).

Definition lift {A : Type} (r : PyErr + A) : Py A := fun w => (r, w).

Definition emit (e : Event) : Py unit :=
  fun w => (inr tt, mkWorld (globals w) (trace w ++ [e])).

(** Reading a global name; an unbound name is a [NameError]. *)
Definition load (x : string) : Py Value :=
  fun w =>
    match globals w !! x with
    | Some v => (inr v, w)
    | None => (inl (NameError x), w)
    end.

(** Binding a global name. *)
Definition store (x : string) (v : Value) : Py unit :=
  fun w => (inr tt, mkWorld (<[x := v]> (globals w)) (trace w ++ [EvBind x])).

Definition import_module (module name : string) : Py unit :=
  store name (VHandle (HModule module)).

Definition from_import (module name : string) : Py unit :=
  store name (VHandle (HFunction module name)).

(** [x.a] where [x] is bound to the optimisation result. *)
Definition attr (x a : string) : Py Value :=
  v ← load x;
  match v with
  | VResult r => emit (EvGetAttr a);; lift (getattr r a)
  | _ => raise (AttributeError a)
  end.

(** [x.a] for a function [a] of the module [m]: [x] has to be bound to that
    module, as the import binds it.  A value of another kind has no such
    attribute; of another module the model knows nothing and takes it to
    have none either. *)
Definition module_attr (x m a : string) : Py unit :=
  v ← load x;
  match v with
  | VHandle (HModule m') =>
      if String.eqb m' m then mret tt else raise (AttributeError a)
  | _ => raise (AttributeError a)
  end.

(** [x.a] for a method [a] of the figure bound to [x]. *)
Definition figure_attr (x a : string) : Py unit :=
  v ← load x;
  match v with
  | VHandle HFigure => mret tt
  | _ => raise (AttributeError a)
  end.

(** [x.a] for a method [a] of the axes bound to [x]: which axes it is. *)
Definition axes (x a : string) : Py Z :=
  v ← load x;
  match v with
  | VHandle (HAxes i) => mret i
  | _ => raise (AttributeError a)
  end.

(** Whether a value is the builtin [print]. *)
Definition is_builtin_print (v : Value) : bool :=
  match v with
  | VHandle (HFunction m name) => String.eqb m "builtins" && String.eqb name "print"
  | _ => false
  end.

(** [print(t.format(args...))].  [print] is a name like any other: the
    notebook never binds it, so it is the builtin unless the namespace
    shadows it.  A shadowing value that is not the builtin is called
    instead, which for a value that is not callable is a [TypeError]. *)
Definition print (template : string) (args : list Value) : Py unit :=
  fun w =>
    match globals w !! "print" with
    | None => emit (EvPrint template args) w
    | Some v =>
        if is_builtin_print v then emit (EvPrint template args) w
        else (inl TypeError, w)
    end.

Definition plot (p : PlotCall) : Py unit := emit (EvPlot p).

(** [ax.step(xs, ys, where=...)]: matplotlib raises [ValueError] unless
    abscissae and ordinates are equally many. *)
Definition step (ax : Z) (xs ys : list R) (where_ : string) : Py unit :=
  if Nat.eqb (length xs) (length ys) then plot (PStep ax xs ys where_)
  else raise ValueError.

(** [v[:, j]] and [v[i, j]] on a two-dimensional array. *)
Definition subscript_column (v : Value) (j : Z) : Py (list R) :=
  lift match v with
       | VArray2 a =>
           match np.column a j with Some c => inr c | None => inl IndexError end
       | _ => inl TypeError
       end.

Definition subscript_item (v : Value) (i j : Z) : Py R :=
  lift match v with
       | VArray2 a =>
           match np.item a i j with Some x => inr x | None => inl IndexError end
       | _ => inl TypeError
       end.

Definition as_array1 (v : Value) : Py (list R) :=
  match v with VArray1 xs => mret xs | _ => raise TypeError end.

Definition nl : string := String (ascii_of_nat 10) EmptyString.

(** [logging.INFO] *)
Definition logging_INFO : Z := 20.

(** ** The code cells *)

(** Imports of numpy, matplotlib and datetime. *)
Definition cell3 : Py unit :=
  emit (EvMagic "matplotlib inline");;
  import_module "numpy" "np";;
  import_module "matplotlib.pyplot" "plt";;
  import_module "datetime" "datetime".

(** Imports of QuTiP, the logger and the example name. *)
Definition cell4 : Py unit :=
  from_import "qutip" "Qobj";;
  from_import "qutip" "identity";;
  from_import "qutip" "sigmax";;
  from_import "qutip" "sigmaz";;
  from_import "qutip.qip" "hadamard_transform";;
  import_module "qutip.logging_utils" "logging";;
  module_attr "logging" "qutip.logging_utils" "get_logger";;
  store "logger" (VHandle HLogger);;
  module_attr "logging" "qutip.logging_utils" "INFO";;
  store "log_level" (VInt logging_INFO);;
  import_module "qutip.control.pulseoptim" "cpo";;
  store "example_name" (VStr "Hadamard").

(** Defining the physics. *)
Definition cell7 : Py unit :=
  f ← load "sigmaz";
  H_d ← lift (construct f []);
  store "H_d" H_d;;
  f ← load "sigmax";
  H_c ← lift (construct f []);
  store "H_c" (VList [H_c]);;
  f ← load "identity";
  U_0 ← lift (construct f [VInt 2]);
  store "U_0" U_0;;
  f ← load "hadamard_transform";
  U_targ ← lift (construct f [VInt 1]);
  store "U_targ" U_targ.

(** Time evolution parameters. *)
Definition cell10 : Py unit :=
  store "n_ts" (VInt 10);;
  store "evo_time" (VInt 10).

(** Termination conditions. *)
Definition cell13 : Py unit :=
  store "fid_err_targ" (VFloat 1e-10);;
  store "max_iter" (VInt 200);;
  store "max_wall_time" (VInt 120);;
  store "min_grad" (VFloat 1e-20).

(** Initial pulse type. *)
Definition cell16 : Py unit :=
  store "p_type" (VStr "RND").

(** Extension for the output files. *)
Definition cell18 : Py unit :=
  example_name ← load "example_name";
  n_ts ← load "n_ts";
  p_type ← load "p_type";
  s ← lift (format "{}_n_ts{}_ptype{}.txt" [example_name; n_ts; p_type]);
  store "f_ext" (VStr s).

(** The same cell edited to bind another value; its comment says: "Set to
    None to suppress output files". *)
Definition cell18_as (ext : Value) : Py unit :=
  store "f_ext" ext.

Definition cell18_none : Py unit := cell18_as VNone.

(** The call of the library: it writes its files, then returns or raises. *)
Definition optimize_pulse_unitary (lib : Library) (c : Call) : Py OptimResult :=
  emit (EvOptimize c (lib c));;
  lift (returned (lib c)).

(** The argument list of the call, read from the namespace left to right
    after the callee [cpo.optimize_pulse_unitary]. *)
Definition call_arguments : Py Call :=
  module_attr "cpo" "qutip.control.pulseoptim" "optimize_pulse_unitary";;
  H_d ← load "H_d";
  H_c ← load "H_c";
  U_0 ← load "U_0";
  U_targ ← load "U_targ";
  n_ts ← load "n_ts";
  evo_time ← load "evo_time";
  fid_err_targ ← load "fid_err_targ";
  min_grad ← load "min_grad";
  max_iter ← load "max_iter";
  max_wall_time ← load "max_wall_time";
  f_ext ← load "f_ext";
  p_type ← load "p_type";
  log_level ← load "log_level";
  mret (mkCall [H_d; H_c; U_0; U_targ; n_ts; evo_time]
               [("fid_err_targ", fid_err_targ); ("min_grad", min_grad);
                ("max_iter", max_iter); ("max_wall_time", max_wall_time);
                ("out_file_ext", f_ext); ("init_pulse_type", p_type);
                ("log_level", log_level); ("gen_stats", VBool true)]).

(** Run the optimisation. *)
Definition cell21 (lib : Library) : Py unit :=
  c ← call_arguments;
  r ← optimize_pulse_unitary lib c;
  store "result" (VResult r).

(** Report the results. *)
Definition cell24 : Py unit :=
  s ← attr "result" "stats";
  match s with
  | VStats st => emit (EvReport st)
  | _ => raise (AttributeError "report")
  end;;
  evo ← attr "result" "evo_full_final";
  print ("Final evolution" +:+ nl +:+ "{}" +:+ nl) [evo];;
  print "********* Summary *****************" [];;
  fid_err ← attr "result" "fid_err";
  print "Final fidelity error {}" [fid_err];;
  grad ← attr "result" "grad_norm_final";
  print "Final gradient normal {}" [grad];;
  reason ← attr "result" "termination_reason";
  print "Terminated due to {}" [reason];;
  n ← attr "result" "num_iter";
  print "Number of iterations {}" [n];;
  module_attr "datetime" "datetime" "timedelta";;
  wt ← attr "result" "wall_time";
  td ← lift (datetime.timedelta wt);
  print "Completed in {} HH:MM:SS.US" [td].

(** One panel's [ax.step(result.time, np.hstack((amps[:, 0], amps[-1, 0])),
    where='post')], with [amps] the attribute [amps_attr] of the result. *)
Definition step_panel (ax amps_attr : string) : Py unit :=
  a ← axes ax "step";
  t ← attr "result" "time";
  xs ← as_array1 t;
  module_attr "np" "numpy" "hstack";;
  amps ← attr "result" amps_attr;
  col ← subscript_column amps 0;
  amps' ← attr "result" amps_attr;
  last ← subscript_item amps' (-1) 0;
  step a xs (np.hstack [np.Arr col; np.Scalar last]) "post".

(** Plot the initial and final amplitudes. *)
Definition cell27 : Py unit :=
  module_attr "plt" "matplotlib.pyplot" "figure";;
  plot PFigure;;
  store "fig1" (VHandle HFigure);;
  figure_attr "fig1" "add_subplot";;
  plot (PAddSubplot 2 1 1);;
  store "ax1" (VHandle (HAxes 1));;
  a ← axes "ax1" "set_title";
  plot (PSetTitle a "Initial control amps");;
  a ← axes "ax1" "set_ylabel";
  plot (PSetYlabel a "Control amplitude");;
  step_panel "ax1" "initial_amps";;
  figure_attr "fig1" "add_subplot";;
  plot (PAddSubplot 2 1 2);;
  store "ax2" (VHandle (HAxes 2));;
  a ← axes "ax2" "set_title";
  plot (PSetTitle a "Optimised Control Sequences");;
  a ← axes "ax2" "set_xlabel";
  plot (PSetXlabel a "Time");;
  a ← axes "ax2" "set_ylabel";
  plot (PSetYlabel a "Control amplitude");;
  step_panel "ax2" "final_amps";;
  module_attr "plt" "matplotlib.pyplot" "tight_layout";;
  plot PTightLayout;;
  module_attr "plt" "matplotlib.pyplot" "show";;
  plot PShow.

(** The function [version_table] of [qutip.ipynbtools]. *)
Definition is_version_table (v : Value) : bool :=
  match v with
  | VHandle (HFunction m name) =>
      String.eqb m "qutip.ipynbtools" && String.eqb name "version_table"
  | _ => false
  end.

(** Versions. *)
Definition cell29 : Py unit :=
  from_import "qutip.ipynbtools" "version_table";;
  f ← load "version_table";
  if is_version_table f then emit EvVersionTable else raise TypeError.

(** The cells before the one that binds the file suffix. *)
Definition preamble : Py unit :=
  cell3;; cell4;; cell7;; cell10;; cell13;; cell16.

(** The notebook: its code cells in order; the first exception stops the
    run.  [suffix_cell] is the cell that binds [f_ext]. *)
Definition notebook_with (suffix_cell : Py unit) (lib : Library) : Py unit :=
  preamble;; suffix_cell;; cell21 lib;; cell24;; cell27;; cell29.

Definition notebook : Library -> Py unit := notebook_with cell18.

Definition fresh : World := mkWorld ∅ [].

Definition run_with (suffix_cell : Py unit) (lib : Library) : (PyErr + unit) * World :=
  notebook_with suffix_cell lib fresh.

Definition run : Library -> (PyErr + unit) * World := run_with cell18.

(** ** Reading a call and a trace *)

(** The value passed for keyword [k], if any. *)
Definition kwarg (c : Call) (k : string) : option Value :=
  snd <$> List.find (fun p => String.eqb (fst p) k) (keywords c).

Definition keyword_names (c : Call) : list string := map fst (keywords c).

(** The optimiser calls of a trace, in order, and what came of them. *)
Definition calls (t : list Event) : list Call :=
  omap (fun e => match e with EvOptimize c _ => Some c | _ => None end) t.

Definition outcomes (t : list Event) : list Outcome :=
  omap (fun e => match e with EvOptimize _ o => Some o | _ => None end) t.

(** The files written during a trace: the optimiser call is the only
    operation of the notebook that touches the file system. *)
Definition files_written (t : list Event) : list string :=
  concat (map written (outcomes t)).

(** The attributes of the result read during a trace, in order. *)
Definition attrs_read (t : list Event) : list string :=
  omap (fun e => match e with EvGetAttr a => Some a | _ => None end) t.

(** The names bound during a trace, in order. *)
Definition names_bound (t : list Event) : list string :=
  omap (fun e => match e with EvBind x => Some x | _ => None end) t.

Definition is_call (e : Event) : bool :=
  match e with EvOptimize _ _ => true | _ => false end.

(** The part of a trace before the first optimiser call, and the part
    after it. *)
Fixpoint before_call (t : list Event) : list Event :=
  match t with
  | [] => []
  | e :: t' => if is_call e then [] else e :: before_call t'
  end.

Fixpoint after_call (t : list Event) : list Event :=
  match t with
  | [] => []
  | e :: t' => if is_call e then t' else after_call t'
  end.

(** ** Two libraries to run the notebook against *)

(** Modelled from the spec: the optimiser is absent from the repository.
    "Optional side effects are writing initial/final amplitude arrays to
    text files named by a caller-supplied suffix"; the cell comment says
    that [None] suppresses the files, and the recorded log names them
    [ctrl_amps_initial_] and [ctrl_amps_final_] followed by the suffix. *)
Definition amplitude_files (ext : option Value) : list string :=
  match ext with
  | Some (VStr e) => ["ctrl_amps_initial_" +:+ e; "ctrl_amps_final_" +:+ e]
  | _ => []
  end.

(** The number of timeslots of a call: its fifth positional argument. *)
Definition num_tslots (c : Call) : nat :=
  match positional c !! 4 with
  | Some (VInt n) => Z.to_nat n
  | _ => 0
  end.

Definition ramp (n : nat) : list R := map INR (seq 0 n).

(** A stand-in result with the shapes the library returns for [n]
    timeslots and one control. *)
Definition sample_result (n : nat) : OptimResult :=
  mkResult (mkStats ["Number of iterations: 5"])
           (qutip.hadamard_transform 1)
           5.9e-13 6.9e-05 "Goal achieved" 5 0.079766
           (ramp (S n))
           (np.mkArray2 n 1 (ramp n))
           (np.mkArray2 n 1 (rev (ramp n))).

(** A library that succeeds and writes its files. *)
Definition sample_lib : Library :=
  fun c => mkOutcome (amplitude_files (kwarg c "out_file_ext"))
                     (inr (sample_result (num_tslots c))).

(** A library that raises before writing anything. *)
Definition failing_lib : Library :=
  fun _ => mkOutcome [] (inl (LibraryError "optimisation failed")).



(** ** The run, spelled out

    What a run leaves behind, as a function of what the library did in the
    one call.  [run_with_spec] below proves that the cells produce exactly
    this. *)

(** The world after the cells that precede the file suffix. *)
Definition pre_world : World := (preamble fresh).2.

Definition preamble_events : list Event :=
  EvMagic "matplotlib inline" ::
  map EvBind ["np"; "plt"; "datetime"; "Qobj"; "identity"; "sigmax"; "sigmaz";
              "hadamard_transform"; "logging"; "logger"; "log_level"; "cpo";
              "example_name"; "H_d"; "H_c"; "U_0"; "U_targ"; "n_ts"; "evo_time";
              "fid_err_targ"; "max_iter"; "max_wall_time"; "min_grad"; "p_type"].

(** The world when the call is made, with [f_ext] bound to [ext]. *)
Definition world_at_call (ext : Value) : World :=
  mkWorld (<["f_ext" := ext]> (globals pre_world)) (trace pre_world ++ [EvBind "f_ext"]).

(** The call the notebook makes when [f_ext] is bound to [ext]. *)
Definition call_with (ext : Value) : Call :=
  mkCall [VQobj qutip.sigmaz; VList [VQobj qutip.sigmax]; VQobj (qutip.identity 2);
          VQobj (qutip.hadamard_transform 1); VInt 10; VInt 10]
         [("fid_err_targ", VFloat 1e-10); ("min_grad", VFloat 1e-20);
          ("max_iter", VInt 200); ("max_wall_time", VInt 120);
          ("out_file_ext", ext); ("init_pulse_type", VStr "RND");
          ("log_level", VInt 20); ("gen_stats", VBool true)].

Definition notebook_suffix : string := "Hadamard_n_ts10_ptypeRND.txt".

Definition notebook_call : Call := call_with (VStr notebook_suffix).

(** The report cell up to its last line: the statistics, the final
    evolution and the summary down to the iteration count, then the read of
    the wall time. *)
Definition summary_events (r : OptimResult) : list Event :=
  [EvGetAttr "stats"; EvReport (stats r);
   EvGetAttr "evo_full_final";
   EvPrint ("Final evolution" +:+ nl +:+ "{}" +:+ nl) [VQobj (evo_full_final r)];
   EvPrint "********* Summary *****************" [];
   EvGetAttr "fid_err"; EvPrint "Final fidelity error {}" [VFloat (fid_err r)];
   EvGetAttr "grad_norm_final";
   EvPrint "Final gradient normal {}" [VFloat (grad_norm_final r)];
   EvGetAttr "termination_reason";
   EvPrint "Terminated due to {}" [VStr (termination_reason r)];
   EvGetAttr "num_iter"; EvPrint "Number of iterations {}" [VInt (num_iter r)];
   EvGetAttr "wall_time"].

(** Whether the report cell gets through: its last line needs the wall time
    as a [timedelta]. *)
Definition reported (r : OptimResult) : bool := datetime.in_range (wall_time r).

Definition report_events (r : OptimResult) : list Event :=
  summary_events r ++
  (if reported r
   then [EvPrint "Completed in {} HH:MM:SS.US" [VTimedelta (wall_time r)]]
   else []).

(** The events of one panel's step call and how it ends: either subscript
    may raise [IndexError], and the step call [ValueError]. *)
Definition panel_events (ax : Z) (amps_attr : string) (tm : list R) (a : np.ndarray2)
  : list Event * (PyErr + unit) :=
  match np.column a 0 with
  | None => ([EvGetAttr "time"; EvGetAttr amps_attr], inl IndexError)
  | Some col =>
      match np.item a (-1) 0 with
      | None =>
          ([EvGetAttr "time"; EvGetAttr amps_attr; EvGetAttr amps_attr], inl IndexError)
      | Some x =>
          let ys := np.hstack [np.Arr col; np.Scalar x] in
          if Nat.eqb (length tm) (length ys)
          then ([EvGetAttr "time"; EvGetAttr amps_attr; EvGetAttr amps_attr;
                 EvPlot (PStep ax tm ys "post")], inr tt)
          else ([EvGetAttr "time"; EvGetAttr amps_attr; EvGetAttr amps_attr],
                inl ValueError)
      end
  end.

Definition panel1 (r : OptimResult) : list Event * (PyErr + unit) :=
  panel_events 1 "initial_amps" (time r) (initial_amps r).

Definition panel2 (r : OptimResult) : list Event * (PyErr + unit) :=
  panel_events 2 "final_amps" (time r) (final_amps r).

(** How the plotting cell ends. *)
Definition plotted (r : OptimResult) : PyErr + unit :=
  match (panel1 r).2 with
  | inr _ => (panel2 r).2
  | inl e => inl e
  end.

Definition cell27_events (r : OptimResult) : list Event :=
  [EvPlot PFigure; EvBind "fig1"; EvPlot (PAddSubplot 2 1 1); EvBind "ax1";
   EvPlot (PSetTitle 1 "Initial control amps");
   EvPlot (PSetYlabel 1 "Control amplitude")] ++ (panel1 r).1 ++
  match (panel1 r).2 with
  | inr _ =>
      [EvPlot (PAddSubplot 2 1 2); EvBind "ax2";
       EvPlot (PSetTitle 2 "Optimised Control Sequences");
       EvPlot (PSetXlabel 2 "Time");
       EvPlot (PSetYlabel 2 "Control amplitude")] ++ (panel2 r).1 ++
      match (panel2 r).2 with
      | inr _ => [EvPlot PTightLayout; EvPlot PShow]
      | inl _ => []
      end
  | inl _ => []
  end.

Definition cell27_globals (r : OptimResult) (g : gmap string Value) : gmap string Value :=
  let g1 := <["ax1" := VHandle (HAxes 1)]> (<["fig1" := VHandle HFigure]> g) in
  match (panel1 r).2 with
  | inr _ => <["ax2" := VHandle (HAxes 2)]> g1
  | inl _ => g1
  end.

Definition cell29_events : list Event := [EvBind "version_table"; EvVersionTable].

(** How the cells after the call end, for a result [r]: in the report
    cell, in the plotting cell, or not at all. *)
Definition reporting (r : OptimResult) : PyErr + unit :=
  if reported r then plotted r else inl OverflowError.

(** Whether the run gets through all its cells. *)
Definition completes (r : OptimResult) : bool :=
  match reporting r with inr _ => true | inl _ => false end.

(** The events and the bindings of the cells after the call, for a result
    [r]. *)
Definition reporting_events (r : OptimResult) : list Event :=
  report_events r ++
  (if reported r
   then cell27_events r ++ (if completes r then cell29_events else [])
   else []).

Definition reporting_globals (r : OptimResult) (g : gmap string Value)
  : gmap string Value :=
  if reported r then
    let g' := cell27_globals r g in
    if completes r
    then <["version_table" := VHandle (HFunction "qutip.ipynbtools" "version_table")]> g'
    else g'
  else g.

(** Everything after the call, given what the library did. *)
Definition after_events (o : Outcome) : list Event :=
  match returned o with
  | inl _ => []
  | inr r => EvBind "result" :: reporting_events r
  end.

Definition expected_trace (ext : Value) (o : Outcome) : list Event :=
  preamble_events ++ EvBind "f_ext" :: EvOptimize (call_with ext) o :: after_events o.

Definition expected_status (o : Outcome) : PyErr + unit :=
  match returned o with
  | inl e => inl e
  | inr r => reporting r
  end.

Definition expected_globals (g : gmap string Value) (o : Outcome) : gmap string Value :=
  match returned o with
  | inl _ => g
  | inr r => reporting_globals r (<["result" := VResult r]> g)
  end.

(** ** Vocabulary of the properties *)

(** The names the call reads: the problem parameters. *)
Definition problem_parameters : list string :=
  ["H_d"; "H_c"; "U_0"; "U_targ"; "n_ts"; "evo_time"; "fid_err_targ"; "min_grad";
   "max_iter"; "max_wall_time"; "f_ext"; "p_type"; "log_level"].

(** Reporting events: attribute reads of the result, the statistics report,
    prints, plot calls, and bindings of names that are not problem
    parameters (the result, the figure and its axes, an imported name). *)
Definition reports (e : Event) : bool :=
  match e with
  | EvGetAttr _ | EvReport _ | EvPrint _ _ | EvPlot _ => true
  | EvBind x => bool_decide (x ∉ problem_parameters)
  | _ => false
  end.

(** The values a print may show: the fields of the result. *)
Definition field_values (r : OptimResult) : list Value :=
  [VStats (stats r); VQobj (evo_full_final r); VFloat (fid_err r);
   VFloat (grad_norm_final r); VStr (termination_reason r); VInt (num_iter r);
   VTimedelta (wall_time r)].

(** A print shows only fields of the result that [o] returned, a report is
    that of its statistics, and a step plot runs over its time grid. *)
Definition shows_fields (o : Outcome) (e : Event) : Prop :=
  match e with
  | EvPrint _ args =>
      match returned o with
      | inr r => Forall (fun v => v ∈ field_values r) args
      | inl _ => False
      end
  | EvReport s =>
      match returned o with inr r => s = stats r | inl _ => False end
  | EvPlot (PStep _ xs _ _) =>
      match returned o with inr r => xs = time r | inl _ => False end
  | _ => True
  end.

(** After the call there are only reporting events. *)
Definition only_reports_result (t : list Event) : Prop :=
  Forall (fun e => reports e = true) (after_call t).

(** Every attribute read of the result is among [fields]. *)
Definition reads_only (t : list Event) (fields : list string) : Prop :=
  Forall (fun a => a ∈ fields) (attrs_read t).

(** The options the interface description lists for the call. *)
Definition listed_options : list string :=
  ["fid_err_targ"; "max_iter"; "max_wall_time"; "min_grad"; "init_pulse_type";
   "out_file_ext"].

(** A trace makes one call, with six positional arguments and exactly the
    keywords [names]. *)
Definition passes_exactly (t : list Event) (names : list string) : Prop :=
  exists c, calls t = [c] /\ length (positional c) = 6 /\ keyword_names c ≡ₚ names.

(** The result fields the data model lists: optimised amplitudes, fidelity
    error, gradient norm, termination reason, iteration count, and the
    timing breakdown (the wall time and the statistics). *)
Definition data_model_fields : list string :=
  ["final_amps"; "fid_err"; "grad_norm_final"; "termination_reason"; "num_iter";
   "wall_time"; "stats"].


(** The lines a trace prints, in order: template and arguments. *)
Definition prints (t : list Event) : list (string * list Value) :=
  omap (fun e => match e with EvPrint tpl args => Some (tpl, args) | _ => None end) t.





(** A name leaves the namespace. *)
Definition unbind (x : string) : Py unit :=
  fun w => (inr tt, mkWorld (delete x (globals w)) (trace w)).



(** The textbook operators. *)
Module Gate.
Import Cplx Mat.

Definition pauli_z : matrix := [[of_R 1; of_R 0]; [of_R 0; of_R (-1)]].
Definition pauli_x : matrix := [[of_R 0; of_R 1]; [of_R 1; of_R 0]].
Definition identity2 : matrix := [[of_R 1; of_R 0]; [of_R 0; of_R 1]].
Definition hadamard : matrix :=
  [[of_R (/ sqrt 2); of_R (/ sqrt 2)]; [of_R (/ sqrt 2); of_R (- / sqrt 2)]].

(** The Hadamard matrix with [h] in place of [1/sqrt 2]: what the library
    holds when [h] is the float64 it rounds [1/sqrt 2] to. *)
Definition hadamard_of (h : R) : matrix :=
  [[of_R h; of_R h]; [of_R h; of_R (- h)]].

End Gate.

(** ** Float64 rounding

    The float64 numbers are the kernel's primitive floats, so that the
    roundings below are computed, not assumed. *)
Module float64.
Import PrimFloat FloatOps SpecFloat.

(** The real number a finite float64 is. *)
Definition to_R (f : float) : R :=
  match Prim2SF f with
  | S754_finite s m e =>
      let x := (IZR (Zpos m) *
                (if (0 <=? e)%Z then IZR (2 ^ e) else / IZR (2 ^ (- e))))%R in
      if s then (- x)%R else x
  | _ => 0%R
  end.

(** The two float64 numbers next to [1/sqrt 2]: the quotient
    [1 / sqrt(2)], printed 0.7071067811865475, and the nearest one, which
    is [sqrt(0.5)] and [2 ** -0.5], printed 0.7071067811865476.  Which of
    them a Hadamard entry is depends on how the library computes it. *)
Definition quotient : float := (1 / sqrt 2)%float.
Definition nearest : float := sqrt 0.5%float.

(** The diagonal entry [h*h + h*h] of the product of a Hadamard matrix of
    entries [h] with its conjugate transpose, in float64 arithmetic. *)
Definition diagonal (h : float) : float := (h * h + h * h)%float.

Definition one : float := 1%float.
Definition below_one : float := 0x1.ffffffffffffep-1%float.
Definition above_one : float := 0x1.0000000000001p+0%float.

(** The bound on the rounding of a number in [0.5, 1): one unit in the
    last place. *)
Definition ulp : R := (/ 2 ^ 53)%R.

End float64.

(** Entries and matrices that agree to within [eps], and unitary to within
    [eps]. *)
Module Approx.
Import Cplx Mat.

Definition close (eps : R) (a b : C) : Prop :=
  (Rabs (a.1 - b.1) <= eps)%R /\ (Rabs (a.2 - b.2) <= eps)%R.

Definition within (eps : R) (a b : matrix) : Prop :=
  Forall2 (Forall2 (close eps)) a b.

Definition unitary_within (eps : R) (m : matrix) : Prop :=
  n_rows m = n_cols m /\
  within eps (mmul (dag m) m) (eye (n_rows m)) /\
  within eps (mmul m (dag m)) (eye (n_rows m)).

End Approx.

(** Modelled from the spec: the optimiser's choice of method is absent from
    the repository.  The spec speaks of "gradient-based numerical
    optimization (L-BFGS-B)", the notebook of "the (default) L-BFGS-B
    algorithm", and the recorded log of the [fmin_l_bfgs_b] method: that is
    the method unless the call overrides it by keyword. *)
Definition method_keywords : list string :=
  ["alg"; "alg_params"; "optim_method"; "method_params"; "optim_alg"; "optim_params"].

Definition optim_method (c : Call) : string :=
  match kwarg c "optim_method" with
  | Some (VStr m) => m
  | _ => "fmin_l_bfgs_b"
  end.

(** Modelled from the spec: the optimiser's file output is absent from the
    repository.  The library writes nothing but the amplitude files named
    by the suffix, and both of them when it returns. *)
Definition writes_amplitude_files (lib : Library) : Prop :=
  forall c,
    written (lib c) ⊆ amplitude_files (kwarg c "out_file_ext") /\
    match returned (lib c) with
    | inr _ => written (lib c) = amplitude_files (kwarg c "out_file_ext")
    | inl _ => True
    end.

(** Modelled from the spec: the shapes of the returned arrays are the
    optimiser's business, absent from the repository.  The amplitude arrays
    are taken to have one row per timeslot and at least one column (one per
    control), and the time grid one point more than there are timeslots. *)
Definition well_shaped (c : Call) (r : OptimResult) : Prop :=
  np.shape0 (initial_amps r) = num_tslots c /\
  np.shape0 (final_amps r) = num_tslots c /\
  0 < np.shape1 (initial_amps r) /\
  0 < np.shape1 (final_amps r) /\
  length (time r) = S (num_tslots c).

(** The step plots of a trace: axes, abscissae, ordinates. *)
Definition steps (t : list Event) : list (Z * list R * list R) :=
  omap (fun e => match e with
                 | EvPlot (PStep ax xs ys _) => Some (ax, xs, ys)
                 | _ => None
                 end) t.

(** A sequence extended by repeating its last element once. *)
Definition extend_last (xs : list R) : list R := xs ++ [List.last xs 0%R].

(** ** Cells on their own, and the notebook under the edits it invites *)


(** The names a run binds after the call. *)
Definition names_after_call : list string :=
  ["result"; "fig1"; "ax1"; "ax2"; "version_table"].

(** The timeslot cell edited to other values; the introduction says: "The
    user can experiment with the timeslicing, by means of changing the
    number of timeslots and/or total time for the evolution". *)
Definition cell10_as (n T : Value) : Py unit :=
  store "n_ts" n;;
  store "evo_time" T.

(** Plain data: [None], a boolean, a number, a string or a list.  Such a
    value is not callable and has none of the attributes the notebook
    takes of a module. *)
Definition plain (v : Value) : bool :=
  match v with
  | VNone | VBool _ | VInt _ | VFloat _ | VStr _ | VList _ => true
  | _ => false
  end.

(** A string without the character [c]. *)
Fixpoint free_of (c : ascii) (s : string) : Prop :=
  match s with
  | EmptyString => True
  | String a s' => a <> c /\ free_of c s'
  end.

(** Two amplitude arrays with as many rows, at least one column each, and
    the same first column. *)
Definition same_first_column (a b : np.ndarray2) : Prop :=
  np.shape0 a = np.shape0 b /\
  0 < np.shape1 a /\
  0 < np.shape1 b /\
  forall i, i < np.shape0 a -> np.get a i 0 = np.get b i 0.

(** A result with a second control of zero amplitudes beside the ramp. *)
Definition two_control_result (n : nat) : OptimResult :=
  mkResult (mkStats ["Number of iterations: 5"])
           (qutip.hadamard_transform 1)
           5.9e-13 6.9e-05 "Goal achieved" 5 0.079766
           (ramp (S n))
           (np.mkArray2 n 2 (concat (map (fun x => [x; 0%R]) (ramp n))))
           (np.mkArray2 n 2 (concat (map (fun x => [x; 0%R]) (rev (ramp n))))).

Definition two_control_lib : Library :=
  fun c => mkOutcome [] (inr (two_control_result (num_tslots c))).

(** The algebra of the Hamiltonians. *)
Module Lie.
Import Cplx Mat.

Definition madd (a b : matrix) : matrix :=
  table (n_rows a) (n_cols a) (fun i j => add (entry a i j) (entry b i j)).

Definition mscale (k : C) (a : matrix) : matrix :=
  table (n_rows a) (n_cols a) (fun i j => mul k (entry a i j)).

Definition msub (a b : matrix) : matrix := madd a (mscale (of_R (-1)) b).

(** The commutator [a b - b a]. *)
Definition comm (a b : matrix) : matrix := msub (mmul a b) (mmul b a).

Definition tr (a : matrix) : C :=
  foldr (fun k acc => add (entry a k k) acc) zero (seq 0 (n_rows a)).

(** The determinant of a 2x2 matrix. *)
Definition det2 (a : matrix) : C :=
  add (mul (entry a 0 0) (entry a 1 1))
      (mul (of_R (-1)) (mul (entry a 0 1) (entry a 1 0))).

Definition i : C := (0%R, 1%R).

Definition pauli_y : matrix := [[of_R 0; (0%R, (-1)%R)]; [i; of_R 0]].

Definition zero2 : matrix := [[of_R 0; of_R 0]; [of_R 0; of_R 0]].

End Lie.

(** The suffix for example [name], [n] timeslots and pulse type [p]. *)
Definition suffix_of (name : string) (n : Z) (p : string) : string :=
  name +:+ "_n_ts" +:+ pretty n +:+ "_ptype" +:+ p +:+ ".txt".

(** * Running the cells *)

(** ** Stepping through a bind *)

Lemma bind_step {A B} (m : Py A) (k : A -> Py B) w x w' :
  m w = (inr x, w') -> (m ≫= k) w = k x w'.
Proof. intros H. unfold mbind, Py_bind. rewrite H. reflexivity. Qed.

Lemma bind_fail {A B} (m : Py A) (k : A -> Py B) w e w' :
  m w = (inl e, w') -> (m ≫= k) w = (inl e, w').
Proof. intros H. unfold mbind, Py_bind. rewrite H. reflexivity. Qed.

Lemma bind_assoc {A B C} (m : Py A) (f : A -> Py B) (g : B -> Py C) w :
  ((m ≫= f) ≫= g) w = (m ≫= (fun x => f x ≫= g)) w.
Proof. unfold mbind, Py_bind. destruct (m w) as [[e|x] w1]; reflexivity. Qed.

Lemma load_bound x v w : globals w !! x = Some v -> load x w = (inr v, w).
Proof. intros H. unfold load. rewrite H. reflexivity. Qed.

Lemma emit_runs e w : emit e w = (inr tt, mkWorld (globals w) (trace w ++ [e])).
Proof. reflexivity. Qed.

Lemma store_runs x v w :
  store x v w = (inr tt, mkWorld (<[x := v]> (globals w)) (trace w ++ [EvBind x])).
Proof. reflexivity. Qed.

Lemma attr_result x a r v w :
  globals w !! x = Some (VResult r) -> getattr r a = inr v ->
  attr x a w = (inr v, mkWorld (globals w) (trace w ++ [EvGetAttr a])).
Proof.
  intros Hx Ha. unfold attr. rewrite (bind_step _ _ _ _ _ (load_bound _ _ _ Hx)).
  unfold emit, lift, mbind, Py_bind. rewrite Ha. reflexivity.
Qed.

Lemma module_attr_bound x m a w :
  globals w !! x = Some (VHandle (HModule m)) -> module_attr x m a w = (inr tt, w).
Proof.
  intros Hx. unfold module_attr. rewrite (bind_step _ _ _ _ _ (load_bound _ _ _ Hx)).
  rewrite String.eqb_refl. reflexivity.
Qed.

Lemma figure_attr_bound x a w :
  globals w !! x = Some (VHandle HFigure) -> figure_attr x a w = (inr tt, w).
Proof.
  intros Hx. unfold figure_attr. rewrite (bind_step _ _ _ _ _ (load_bound _ _ _ Hx)).
  reflexivity.
Qed.

Lemma axes_bound x a i w :
  globals w !! x = Some (VHandle (HAxes i)) -> axes x a w = (inr i, w).
Proof.
  intros Hx. unfold axes. rewrite (bind_step _ _ _ _ _ (load_bound _ _ _ Hx)).
  reflexivity.
Qed.

(** With [print] not shadowed, a line is printed. *)
Lemma print_runs tpl args w :
  globals w !! "print" = None ->
  print tpl args w = (inr tt, mkWorld (globals w) (trace w ++ [EvPrint tpl args])).
Proof. intros H. unfold print. rewrite H. reflexivity. Qed.

(** A lookup in a namespace built by inserts over known bindings. *)
Ltac lookup_now :=
  cbn [globals];
  repeat first [ rewrite lookup_insert_ne by done | rewrite lookup_delete_ne by done ];
  first [ eassumption | apply lookup_insert_eq ].

Ltac head_runs :=
  lazymatch goal with
  | |- attr _ _ _ = _ => eapply attr_result; [ lookup_now | reflexivity ]
  | |- module_attr _ _ _ _ = _ => eapply module_attr_bound; lookup_now
  | |- figure_attr _ _ _ = _ => eapply figure_attr_bound; lookup_now
  | |- axes _ _ _ = _ => eapply axes_bound; lookup_now
  | |- load _ _ = _ => eapply load_bound; lookup_now
  | |- emit _ _ = _ => apply emit_runs
  | |- print _ _ _ = _ => apply print_runs; lookup_now
  | |- plot _ _ = _ => apply emit_runs
  | |- store _ _ _ = _ => apply store_runs
  | |- from_import _ _ _ = _ => apply store_runs
  | |- import_module _ _ _ = _ => apply store_runs
  | |- as_array1 (VArray1 _) _ = _ => reflexivity
  | |- unbind _ _ = _ => reflexivity
  | |- mret _ _ = _ => reflexivity
  | |- lift (construct _ _) _ = _ => reflexivity
  end.

(** One statement: run the head of a bind and continue in the world it
    leaves. *)
Ltac exec1 :=
  lazymatch goal with
  | |- (?m ≫= ?k) ?w = _ => erewrite (bind_step m k w); [ | head_runs ]
  end; cbn [globals trace].

(** ** The cells before the call *)

Lemma preamble_runs : preamble fresh = (inr tt, pre_world).
Proof. vm_compute. reflexivity. Qed.

Lemma preamble_trace : trace pre_world = preamble_events.
Proof. vm_compute. reflexivity. Qed.

Lemma cell18_runs : cell18 pre_world = (inr tt, world_at_call (VStr notebook_suffix)).
Proof. vm_compute. reflexivity. Qed.

Lemma cell18_as_runs ext : cell18_as ext pre_world = (inr tt, world_at_call ext).
Proof. reflexivity. Qed.

Lemma arguments_at_call ext :
  call_arguments (world_at_call ext) = (inr (call_with ext), world_at_call ext).
Proof. vm_compute. reflexivity. Qed.

Lemma modules_at_call ext :
  globals (world_at_call ext) !! "datetime" = Some (VHandle (HModule "datetime")) /\
  globals (world_at_call ext) !! "np" = Some (VHandle (HModule "numpy")) /\
  globals (world_at_call ext) !! "plt" = Some (VHandle (HModule "matplotlib.pyplot")) /\
  globals (world_at_call ext) !! "print" = None.
Proof. repeat split; vm_compute; reflexivity. Qed.

(** ** The cells after the call *)

Lemma cell24_spec w r :
  globals w !! "result" = Some (VResult r) ->
  globals w !! "datetime" = Some (VHandle (HModule "datetime")) ->
  globals w !! "print" = None ->
  cell24 w
  = (if reported r then inr tt else inl OverflowError,
     mkWorld (globals w) (trace w ++ report_events r)).
Proof.
  intros Hr Hd Hp. unfold cell24, report_events, summary_events, reported.
  repeat exec1.
  unfold datetime.timedelta.
  destruct (datetime.in_range (wall_time r)).
  - erewrite (bind_step (lift _)) by reflexivity.
    rewrite print_runs by lookup_now. cbn [globals trace].
    rewrite <- !app_assoc. reflexivity.
  - erewrite (bind_fail (lift _)) by reflexivity.
    rewrite app_nil_r, <- !app_assoc. reflexivity.
Qed.

Lemma step_panel_spec ax amps_attr i r a w :
  globals w !! ax = Some (VHandle (HAxes i)) ->
  globals w !! "result" = Some (VResult r) ->
  globals w !! "np" = Some (VHandle (HModule "numpy")) ->
  getattr r amps_attr = inr (VArray2 a) ->
  step_panel ax amps_attr w
  = ((panel_events i amps_attr (time r) a).2,
     mkWorld (globals w) (trace w ++ (panel_events i amps_attr (time r) a).1)).
Proof.
  intros Hax Hr Hnp Ha. unfold step_panel, panel_events.
  exec1. exec1. exec1. exec1.
  erewrite (bind_step (attr _ _)) by (eapply attr_result; [ lookup_now | exact Ha ]).
  cbn [globals trace]. unfold subscript_column, subscript_item.
  destruct (np.column a 0) as [col|].
  - erewrite (bind_step (lift _)) by reflexivity.
    erewrite (bind_step (attr _ _)) by (eapply attr_result; [ lookup_now | exact Ha ]).
    cbn [globals trace].
    destruct (np.item a (-1) 0) as [x|].
    + erewrite (bind_step (lift _)) by reflexivity.
      cbv zeta. unfold step.
      destruct (length (time r) =? length (np.hstack [np.Arr col; np.Scalar x])).
      * unfold plot. rewrite emit_runs. cbn [globals trace fst snd].
        rewrite <- !app_assoc. reflexivity.
      * cbn [fst snd]. rewrite <- !app_assoc. reflexivity.
    + erewrite (bind_fail (lift _)) by reflexivity.
      cbn [fst snd]. rewrite <- !app_assoc. reflexivity.
  - erewrite (bind_fail (lift _)) by reflexivity.
    cbn [fst snd]. rewrite <- !app_assoc. reflexivity.
Qed.

Lemma cell27_spec w r :
  globals w !! "result" = Some (VResult r) ->
  globals w !! "plt" = Some (VHandle (HModule "matplotlib.pyplot")) ->
  globals w !! "np" = Some (VHandle (HModule "numpy")) ->
  cell27 w
  = (plotted r, mkWorld (cell27_globals r (globals w)) (trace w ++ cell27_events r)).
Proof.
  intros Hr Hplt Hnp.
  unfold cell27, plotted, cell27_events, cell27_globals, panel1, panel2.
  repeat exec1.
  lazymatch goal with
  | |- (step_panel ?ax ?at_ ≫= ?k) ?w0 = _ =>
      pose proof (step_panel_spec ax at_ 1 r (initial_amps r) w0
                    ltac:(lookup_now) ltac:(lookup_now) ltac:(lookup_now) eq_refl) as H1
  end.
  cbn [globals trace] in H1.
  destruct (panel_events 1 "initial_amps" (time r) (initial_amps r)) as [ev1 [e1|[]]];
    cbn [fst snd] in *.
  { rewrite (bind_fail _ _ _ _ _ H1). rewrite <- !app_assoc, app_nil_r. reflexivity. }
  rewrite (bind_step _ _ _ _ _ H1).
  repeat exec1.
  lazymatch goal with
  | |- (step_panel ?ax ?at_ ≫= ?k) ?w0 = _ =>
      pose proof (step_panel_spec ax at_ 2 r (final_amps r) w0
                    ltac:(lookup_now) ltac:(lookup_now) ltac:(lookup_now) eq_refl) as H2
  end.
  cbn [globals trace] in H2.
  destruct (panel_events 2 "final_amps" (time r) (final_amps r)) as [ev2 [e2|[]]];
    cbn [fst snd] in *.
  { rewrite (bind_fail _ _ _ _ _ H2). rewrite <- !app_assoc, app_nil_r. reflexivity. }
  rewrite (bind_step _ _ _ _ _ H2).
  repeat exec1.
  unfold plot. rewrite emit_runs. cbn [globals trace].
  rewrite <- !app_assoc. reflexivity.
Qed.

Lemma cell29_spec w :
  cell29 w
  = (inr tt,
     mkWorld (<["version_table" := VHandle (HFunction "qutip.ipynbtools" "version_table")]>
                (globals w))
             (trace w ++ cell29_events)).
Proof.
  unfold cell29. repeat exec1. cbn [is_version_table]. 
  rewrite !String.eqb_refl. cbn [andb].
  rewrite emit_runs. cbn [globals trace].
  rewrite <- !app_assoc. reflexivity.
Qed.

(** ** The whole run *)

(** The cells after the call, in any world that binds [result] to a result
    and the three modules as the imports bind them, and does not shadow
    [print]. *)
Lemma reporting_spec w r :
  globals w !! "result" = Some (VResult r) ->
  globals w !! "datetime" = Some (VHandle (HModule "datetime")) ->
  globals w !! "np" = Some (VHandle (HModule "numpy")) ->
  globals w !! "plt" = Some (VHandle (HModule "matplotlib.pyplot")) ->
  globals w !! "print" = None ->
  (cell24;; cell27;; cell29) w
  = (reporting r,
     mkWorld (reporting_globals r (globals w)) (trace w ++ reporting_events r)).
Proof.
  intros Hr Hdt Hnp Hplt Hpr.
  unfold reporting, reporting_globals, reporting_events, completes, reporting.
  pose proof (cell24_spec w r Hr Hdt Hpr) as H24.
  destruct (reported r).
  - rewrite (bind_step _ _ _ _ _ H24).
    pose proof (cell27_spec (mkWorld (globals w) (trace w ++ report_events r)) r
                  Hr Hplt Hnp) as H27.
    cbn [globals trace] in H27.
    destruct (plotted r) as [e|[]].
    + rewrite (bind_fail _ _ _ _ _ H27). rewrite app_nil_r, <- !app_assoc. reflexivity.
    + rewrite (bind_step _ _ _ _ _ H27). rewrite cell29_spec. cbn [globals trace].
      rewrite <- !app_assoc. reflexivity.
  - rewrite (bind_fail _ _ _ _ _ H24). rewrite app_nil_r. reflexivity.
Qed.

(** The optimisation cell, in a world where the arguments evaluate to [c]. *)
Lemma cell21_spec lib w c :
  call_arguments w = (inr c, w) ->
  cell21 lib w
  = match returned (lib c) with
    | inl e => (inl e, mkWorld (globals w) (trace w ++ [EvOptimize c (lib c)]))
    | inr r => (inr tt, mkWorld (<["result" := VResult r]> (globals w))
                                (trace w ++ [EvOptimize c (lib c); EvBind "result"]))
    end.
Proof.
  intros Hargs. unfold cell21. rewrite (bind_step _ _ _ _ _ Hargs).
  unfold optimize_pulse_unitary.
  destruct (returned (lib c)) as [e|r].
  - erewrite (bind_fail (_ ≫= _)); [ reflexivity | ].
    rewrite (bind_step _ _ _ _ _ (emit_runs _ _)). reflexivity.
  - erewrite (bind_step (_ ≫= _)).
    2:{ rewrite (bind_step _ _ _ _ _ (emit_runs _ _)). reflexivity. }
    rewrite store_runs. cbn [globals trace]. rewrite <- app_assoc. reflexivity.
Qed.

(** From the call onwards, in any world where the arguments evaluate to
    [c], the modules used later are bound and [print] is not shadowed. *)
Lemma tail_spec lib w c :
  call_arguments w = (inr c, w) ->
  globals w !! "datetime" = Some (VHandle (HModule "datetime")) ->
  globals w !! "np" = Some (VHandle (HModule "numpy")) ->
  globals w !! "plt" = Some (VHandle (HModule "matplotlib.pyplot")) ->
  globals w !! "print" = None ->
  (cell21 lib;; cell24;; cell27;; cell29) w
  = (expected_status (lib c),
     mkWorld (expected_globals (globals w) (lib c))
             (trace w ++ EvOptimize c (lib c) :: after_events (lib c))).
Proof.
  intros Hargs Hdt Hnp Hplt Hpr.
  pose proof (cell21_spec lib w c Hargs) as H21.
  unfold expected_status, expected_globals, after_events.
  destruct (returned (lib c)) as [e|r].
  - rewrite (bind_fail _ _ _ _ _ H21). reflexivity.
  - rewrite (bind_step _ _ _ _ _ H21).
    rewrite reporting_spec with (r := r) by lookup_now.
    cbn [globals trace]. rewrite <- app_assoc. reflexivity.
Qed.

Theorem run_with_spec suffix_cell ext lib :
  suffix_cell pre_world = (inr tt, world_at_call ext) ->
  run_with suffix_cell lib
  = (expected_status (lib (call_with ext)),
     mkWorld (expected_globals (globals (world_at_call ext)) (lib (call_with ext)))
             (expected_trace ext (lib (call_with ext)))).
Proof.
  intros Hsuffix. unfold run_with, notebook_with.
  rewrite (bind_step _ _ _ _ _ preamble_runs).
  rewrite (bind_step _ _ _ _ _ Hsuffix).
  destruct (modules_at_call ext) as (Hdt & Hnp & Hplt & Hpr).
  rewrite (tail_spec lib _ _ (arguments_at_call ext) Hdt Hnp Hplt Hpr).
  unfold expected_trace. rewrite <- preamble_trace.
  unfold world_at_call. cbn [globals trace]. rewrite <- app_assoc. reflexivity.
Qed.

Corollary run_spec lib :
  run lib
  = (expected_status (lib notebook_call),
     mkWorld (expected_globals (globals (world_at_call (VStr notebook_suffix)))
                               (lib notebook_call))
             (expected_trace (VStr notebook_suffix) (lib notebook_call))).
Proof. apply run_with_spec, cell18_runs. Qed.

(** * The properties *)

(** Closed decidable goals. *)
Ltac decide_now := apply (bool_decide_unpack _); vm_compute; reflexivity.

(** Case analysis on the cells after the call: the report cell gets its
    [timedelta] or not, and each panel gets through its subscripts and its
    step call or not. *)
Ltac panel_cases :=
  unfold reporting_events, reporting_globals, completes, reporting, plotted,
         report_events, reported, cell27_events, cell27_globals,
         panel1, panel2, panel_events;
  repeat match goal with
         | |- context [datetime.in_range ?x] => destruct (datetime.in_range x)
         | |- context [match np.column ?a ?j with _ => _ end] => destruct (np.column a j)
         | |- context [match np.item ?a ?i ?j with _ => _ end] => destruct (np.item a i j)
         | |- context [Nat.eqb (length ?xs) (length ?ys)] =>
             destruct (Nat.eqb (length xs) (length ys))
         end;
  cbn [fst snd].

(** Case analysis on a run: the library raised, or it returned and the
    cells after the call went as far as they did. *)
Ltac run_cases lib :=
  rewrite ?(run_spec lib); cbn [fst snd globals trace];
  unfold expected_status, expected_trace, expected_globals, after_events;
  let fs := fresh "fs" in
  let e := fresh "e" in
  let r := fresh "r" in
  destruct (lib notebook_call) as [fs [e|r]]; cbn [returned written];
  [ | panel_cases ].

Lemma run_calls lib : calls (trace (run lib).2) = [notebook_call].
Proof. run_cases lib; reflexivity. Qed.

Lemma run_with_outcomes suffix_cell ext lib :
  suffix_cell pre_world = (inr tt, world_at_call ext) ->
  outcomes (trace (run_with suffix_cell lib).2) = [lib (call_with ext)].
Proof.
  intros Hsuffix. rewrite (run_with_spec _ _ _ Hsuffix). cbn [snd trace].
  unfold expected_trace, after_events.
  destruct (lib (call_with ext)) as [fs [e|r]]; cbn [returned written];
    [ | panel_cases ]; reflexivity.
Qed.

Lemma run_with_files suffix_cell ext lib :
  suffix_cell pre_world = (inr tt, world_at_call ext) ->
  files_written (trace (run_with suffix_cell lib).2) = written (lib (call_with ext)).
Proof.
  intros Hsuffix. unfold files_written.
  rewrite (run_with_outcomes _ _ _ Hsuffix). cbn [map concat]. apply app_nil_r.
Qed.

(** The wall time of the recorded run is one [timedelta] takes. *)
Lemma in_range_bounds x :
  datetime.in_range x = true <->
  (datetime.min_seconds <= x < datetime.max_seconds)%R.
Proof.
  unfold datetime.in_range.
  destruct (Rle_dec datetime.min_seconds x), (Rlt_dec x datetime.max_seconds);
    split; intros H; try reflexivity; try discriminate; lra.
Qed.

Lemma sample_wall_time_in_range : datetime.in_range 0.079766 = true.
Proof. apply in_range_bounds. unfold datetime.min_seconds, datetime.max_seconds. lra. Qed.

Lemma sample_reported n : reported (sample_result n) = true.
Proof. apply sample_wall_time_in_range. Qed.

(** The notebook against the two sample libraries. *)
Example run_sample_completes : (run sample_lib).1 = inr tt.
Proof.
  rewrite run_spec. cbn [fst]. unfold expected_status, reporting.
  change (returned (sample_lib notebook_call)) with (@inr PyErr _ (sample_result 10)).
  cbv iota. rewrite sample_reported. vm_compute. reflexivity.
Qed.

Example run_failing_stops :
  (run failing_lib).1 = inl (LibraryError "optimisation failed") /\
  after_call (trace (run failing_lib).2) = [].
Proof. split; vm_compute; reflexivity. Qed.
(** ** The operators *)

Section Operators.
Import Cplx Mat.

Lemma sigmaz_data : qutip.data qutip.sigmaz = Gate.pauli_z.
Proof. reflexivity. Qed.

Lemma sigmax_data : qutip.data qutip.sigmax = Gate.pauli_x.
Proof. reflexivity. Qed.

Lemma identity_data : qutip.data (qutip.identity 2) = Gate.identity2.
Proof. reflexivity. Qed.

Lemma hadamard_data : qutip.data (qutip.hadamard_transform 1) = Gate.hadamard.
Proof.
  unfold qutip.hadamard_transform, Gate.hadamard, table, scale, qutip.sign.
  cbn [qutip.data Nat.pow Nat.mul Nat.add seq map pow].
  repeat match goal with
         | |- context [Nat.even ?k] =>
             let b := eval vm_compute in (Nat.even k) in
             change (Nat.even k) with b
         end.
  unfold of_R. cbn [fst snd].
  replace (2 * 1)%R with 2%R by lra.
  repeat f_equal; lra.
Qed.

Lemma C_eq (a b c d : R) : a = c -> b = d -> (a, b) = (c, d).
Proof. intros -> ->. reflexivity. Qed.

(** Entry by entry: expand the products and compare real and imaginary
    parts. *)
Ltac by_entries tac :=
  unfold hermitian, unitary, dag, mmul, eye, table, dot, entry, n_rows, n_cols,
         conj, mul, add, zero, one, of_R;
  cbn [length seq map nth foldr fst snd Nat.eqb];
  repeat first [ split | f_equal | apply C_eq ]; try reflexivity; tac.

Lemma pauli_z_hermitian : hermitian Gate.pauli_z.
Proof. unfold Gate.pauli_z. by_entries lra. Qed.

Lemma pauli_x_hermitian : hermitian Gate.pauli_x.
Proof. unfold Gate.pauli_x. by_entries lra. Qed.

Lemma identity2_unitary : unitary Gate.identity2.
Proof. unfold Gate.identity2. by_entries lra. Qed.

Lemma inv_sqrt2_sqr : (/ sqrt 2 * / sqrt 2 = / 2)%R.
Proof. rewrite <- Rinv_mult, sqrt_sqrt by lra. reflexivity. Qed.

Lemma hadamard_unitary : unitary Gate.hadamard.
Proof.
  unfold Gate.hadamard. pose proof inv_sqrt2_sqr as Hh.
  set (h := (/ sqrt 2)%R) in *.
  by_entries nra.
Qed.

(** ** The Hadamard matrix under float64 rounding *)

Import Approx.

Lemma inv_sqrt2_sqrt : (/ sqrt 2 = sqrt (/ 2))%R.
Proof. rewrite sqrt_inv. reflexivity. Qed.

(** A rational within one unit in the last place of [1/sqrt 2], by its
    square. *)
Lemma near_inv_sqrt2 (q : R) :
  (0 < q - / 9007199254740992)%R ->
  ((q - / 9007199254740992) * (q - / 9007199254740992) <= / 2)%R ->
  (/ 2 <= (q + / 9007199254740992) * (q + / 9007199254740992))%R ->
  (Rabs (q - / sqrt 2) <= float64.ulp)%R.
Proof.
  intros Hpos Hlo Hhi. rewrite inv_sqrt2_sqrt. unfold float64.ulp.
  replace (/ 2 ^ 53)%R with (/ 9007199254740992)%R by (f_equal; lra).
  assert (H1 : (q - / 9007199254740992 <= sqrt (/ 2))%R).
  { rewrite <- (sqrt_square (q - / 9007199254740992)) by lra.
    apply sqrt_le_1_alt. exact Hlo. }
  assert (H2 : (sqrt (/ 2) <= q + / 9007199254740992)%R).
  { rewrite <- (sqrt_square (q + / 9007199254740992)) by lra.
    apply sqrt_le_1_alt. exact Hhi. }
  apply Rabs_le. lra.
Qed.

(** The real number a float64 constant is, computed from its mantissa and
    exponent. *)
Ltac float_value f :=
  unfold float64.to_R;
  let v := eval vm_compute in (FloatOps.Prim2SF f) in
  change (FloatOps.Prim2SF f) with v;
  cbv beta iota zeta;
  repeat match goal with
         | |- context [(0 <=? ?e)%Z] =>
             let b := eval vm_compute in (0 <=? e)%Z in
             change (0 <=? e)%Z with b
         end;
  cbv iota;
  repeat match goal with
         | |- context [IZR (2 ^ ?e)] =>
             let v := eval vm_compute in (2 ^ e)%Z in
             change (2 ^ e)%Z with v
         end.

Lemma quotient_value :
  float64.to_R float64.quotient = (6369051672525772 / 9007199254740992)%R.
Proof. float_value float64.quotient. reflexivity. Qed.

Lemma nearest_value :
  float64.to_R float64.nearest = (6369051672525773 / 9007199254740992)%R.
Proof. float_value float64.nearest. reflexivity. Qed.

Lemma quotient_near :
  (Rabs (float64.to_R float64.quotient - / sqrt 2) <= float64.ulp)%R.
Proof. rewrite quotient_value. apply near_inv_sqrt2; lra. Qed.

Lemma nearest_near :
  (Rabs (float64.to_R float64.nearest - / sqrt 2) <= float64.ulp)%R.
Proof. rewrite nearest_value. apply near_inv_sqrt2; lra. Qed.

Lemma hadamard_of_exact : Gate.hadamard_of (/ sqrt 2) = Gate.hadamard.
Proof. reflexivity. Qed.

Lemma hadamard_of_hermitian h : hermitian (Gate.hadamard_of h).
Proof. unfold Gate.hadamard_of. by_entries lra. Qed.

Lemma inv_sqrt2_bounds : (7 / 10 < / sqrt 2 < 71 / 100)%R.
Proof.
  pose proof inv_sqrt2_sqr as Hs.
  assert (Hpos : (0 < / sqrt 2)%R) by (apply Rinv_0_lt_compat, sqrt_lt_R0; lra).
  split; nra.
Qed.

(** The product of the rounded matrix with itself is the identity scaled
    by [2 h^2], which is within four units in the last place of 1. *)
Lemma rounded_square_near h :
  (Rabs (h - / sqrt 2) <= float64.ulp)%R ->
  (Rabs (h * h + h * h - 1) <= 4 * float64.ulp)%R.
Proof.
  intros Hh. pose proof inv_sqrt2_sqr as Hs. pose proof inv_sqrt2_bounds as Hb.
  assert (Hu : (0 < float64.ulp <= / 4)%R).
  { unfold float64.ulp. split; [ apply Rinv_0_lt_compat; lra | ].
    apply Rinv_le_contravar; lra. }
  assert (Hd : (- float64.ulp <= h - / sqrt 2 <= float64.ulp)%R).
  { unfold Rabs in Hh. destruct (Rcase_abs (h - / sqrt 2)); lra. }
  clear Hh. apply Rabs_le.
  set (s := (/ sqrt 2)%R) in *. set (u := float64.ulp) in *.
  set (d := (h - s)%R) in *. set (t := (h + s)%R).
  assert (Ht : (0 <= t <= 2)%R) by (unfold t, d in *; lra).
  assert (E : (h * h + h * h - 1 = 2 * (d * t))%R).
  { transitivity (2 * (h * h) - 2 * (s * s))%R; [ rewrite Hs; lra | unfold d, t; ring ]. }
  rewrite E.
  assert (H1 : (0 <= (u - d) * t)%R) by (apply Rmult_le_pos; lra).
  assert (H2 : (0 <= (u + d) * t)%R) by (apply Rmult_le_pos; lra).
  assert (H3 : (0 <= u * (2 - t))%R) by (apply Rmult_le_pos; lra).
  split; nra.
Qed.

Lemma hadamard_of_unitary_within h :
  (Rabs (h - / sqrt 2) <= float64.ulp)%R ->
  unitary_within (4 * float64.ulp) (Gate.hadamard_of h).
Proof.
  intros Hh. pose proof (rounded_square_near h Hh) as Hd.
  assert (Hu : (0 <= 4 * float64.ulp)%R).
  { unfold float64.ulp. assert (0 < / 2 ^ 53)%R by (apply Rinv_0_lt_compat; lra). lra. }
  assert (Hz : forall x : R, x = 0%R -> (Rabs x <= 4 * float64.ulp)%R).
  { intros x ->. rewrite Rabs_R0. exact Hu. }
  assert (Hone : forall x : R, (x = h * h + h * h - 1)%R -> (Rabs x <= 4 * float64.ulp)%R).
  { intros x ->. exact Hd. }
  unfold unitary_within, within, close, Gate.hadamard_of.
  unfold dag, mmul, eye, table, dot, entry, n_rows, n_cols, conj, mul, add, zero, one, of_R.
  cbn [length seq map nth foldr fst snd Nat.eqb].
  split; [ reflexivity | ].
  split.
  all: repeat lazymatch goal with |- Forall2 _ _ _ => constructor end.
  all: split; cbn [fst snd].
  all: first [ apply Hone; lra | apply Hz; lra ].
Qed.

(** Neither float64 neighbour of [1/sqrt 2] squares to a half: the matrix
    the library holds is unitary to within rounding, not exactly. *)
Lemma float64_hadamard_is_inexact :
  ~ unitary (Gate.hadamard_of (float64.to_R float64.quotient)) /\
  ~ unitary (Gate.hadamard_of (float64.to_R float64.nearest)) /\
  float64.diagonal float64.quotient = float64.below_one /\
  float64.diagonal float64.nearest = float64.above_one.
Proof.
  assert (Hne : forall h : R,
             (h * h + h * h <> 1)%R -> ~ unitary (Gate.hadamard_of h)).
  { intros h Hh (_ & Hu & _). apply Hh.
    unfold Gate.hadamard_of in Hu.
    unfold dag, mmul, eye, table, dot, entry, n_rows, n_cols, conj, mul, add, zero, one,
           of_R in Hu.
    cbn [length seq map nth foldr fst snd Nat.eqb] in Hu.
    injection Hu as Hu _. lra. }
  split; [ apply Hne; rewrite quotient_value; lra | ].
  split; [ apply Hne; rewrite nearest_value; lra | ].
  split; vm_compute; reflexivity.
Qed.

End Operators.

(** ** Subscripts and the file suffix *)

Lemma norm_index_first n : 0 < n -> np.norm_index n 0 = Some 0.
Proof.
  intros Hn. unfold np.norm_index. cbn [Z.ltb Z.compare Z.leb andb].
  destruct (Z.ltb_spec 0 (Z.of_nat n)); [ reflexivity | lia ].
Qed.

Lemma norm_index_last n : 0 < n -> np.norm_index n (-1) = Some (n - 1).
Proof.
  intros Hn. unfold np.norm_index. cbn [Z.ltb Z.compare].
  destruct (Z.leb_spec 0 (-1 + Z.of_nat n)); [ | lia ].
  destruct (Z.ltb_spec (-1 + Z.of_nat n) (Z.of_nat n)); [ | lia ].
  cbn [andb]. f_equal. lia.
Qed.

Lemma column_first a :
  0 < np.shape1 a ->
  np.column a 0 = Some (map (fun i => np.get a i 0) (seq 0 (np.shape0 a))).
Proof. intros H. unfold np.column. rewrite (norm_index_first _ H). reflexivity. Qed.

Lemma item_last a :
  0 < np.shape0 a -> 0 < np.shape1 a ->
  np.item a (-1) 0 = Some (np.get a (np.shape0 a - 1) 0).
Proof.
  intros H0 H1. unfold np.item.
  rewrite (norm_index_last _ H0), (norm_index_first _ H1). reflexivity.
Qed.

Lemma last_map_seq (f : nat -> R) n :
  0 < n -> List.last (map f (seq 0 n)) 0%R = f (n - 1).
Proof.
  intros Hn. destruct n as [|n]; [ lia | ].
  rewrite seq_S, map_app. cbn [map]. rewrite List.last_last. f_equal. lia.
Qed.

(** What one panel plots when the array has rows and columns and the time
    grid has one point more than there are rows. *)
Lemma panel_events_shaped ax amps_attr tm a :
  0 < np.shape0 a -> 0 < np.shape1 a -> length tm = S (np.shape0 a) ->
  exists col,
    np.column a 0 = Some col /\
    length col = np.shape0 a /\
    panel_events ax amps_attr tm a
    = ([EvGetAttr "time"; EvGetAttr amps_attr; EvGetAttr amps_attr;
        EvPlot (PStep ax tm (extend_last col) "post")], inr tt).
Proof.
  intros H0 H1 Htm. eexists. split; [ apply (column_first _ H1) | ].
  split; [ rewrite length_map, length_seq; reflexivity | ].
  unfold panel_events. rewrite (column_first _ H1), (item_last _ H0 H1).
  cbv zeta. unfold extend_last, np.hstack. cbn [map np.atleast_1d concat].
  rewrite app_nil_r, (last_map_seq _ _ H0).
  rewrite length_app, length_map, length_seq, Htm. cbn [length].
  replace (np.shape0 a + 1) with (S (np.shape0 a)) by lia.
  rewrite Nat.eqb_refl. reflexivity.
Qed.

(** The suffix is the template filled with name, timeslots and pulse type. *)
Lemma suffix_format name n p :
  format "{}_n_ts{}_ptype{}.txt" [VStr name; VInt n; VStr p]
  = inr (name +:+ "_n_ts" +:+ pretty n +:+ "_ptype" +:+ p +:+ ".txt").
Proof. reflexivity. Qed.


(** ** The namespace a run leaves *)

(** The cells after the call bind five names and leave every other binding
    as it was. *)
Lemma run_globals_before_call lib x :
  x ∉ names_after_call ->
  globals (run lib).2 !! x = globals (world_at_call (VStr notebook_suffix)) !! x.
Proof.
  intros Hx.
  assert (Hne : x <> "result" /\ x <> "fig1" /\ x <> "ax1" /\ x <> "ax2" /\
                x <> "version_table").
  { unfold names_after_call in Hx. repeat split; intros ->; apply Hx; set_solver. }
  destruct Hne as (? & ? & ? & ? & ?).
  rewrite (run_spec lib). cbn [snd globals].
  unfold expected_globals, reporting_globals, cell27_globals.
  destruct (returned (lib notebook_call)) as [e|r]; [ reflexivity | ].
  destruct (reported r), (completes r), ((panel1 r).2);
    repeat (rewrite lookup_insert_ne by congruence); reflexivity.
Qed.

(** The result stays bound to what the library returned. *)
Lemma run_result_bound lib r :
  returned (lib notebook_call) = inr r ->
  globals (run lib).2 !! "result" = Some (VResult r).
Proof.
  intros Hr. rewrite (run_spec lib). cbn [snd globals].
  unfold expected_globals, reporting_globals, cell27_globals. rewrite Hr.
  destruct (reported r), (completes r), ((panel1 r).2);
    repeat (rewrite lookup_insert_ne by done); apply lookup_insert_eq.
Qed.

(** ** The verdict of the optimisation and the limits after the call *)




(** ** Every run, whatever the library does *)

Section Properties.

Variable lib : Library.

(** C1, as amended: in every run the optimiser is called exactly once, with
    every problem parameter bound before the call; after it there is no
    further call and no problem parameter is bound again; what follows
    reads, prints and plots fields of the returned result, and ends with
    the display of the version table. *)
Theorem one_call_then_reporting :
  calls (trace (run lib).2) = [notebook_call] /\
  Forall (fun p => p ∈ names_bound (before_call (trace (run lib).2))) problem_parameters /\
  calls (after_call (trace (run lib).2)) = [] /\
  Forall (fun x => x ∉ problem_parameters) (names_bound (after_call (trace (run lib).2))) /\
  Forall (fun e => reports e = true \/ e = EvVersionTable) (after_call (trace (run lib).2)) /\
  Forall (shows_fields (lib notebook_call)) (after_call (trace (run lib).2)).
Proof.
  run_cases lib.
  all: split; [ reflexivity | ].
  all: split; [ decide_now | ].
  all: split; [ reflexivity | ].
  all: split; [ decide_now | ].
  all: split.
  all: cbn [after_call is_call app preamble_events map].
  all: repeat first [ apply Forall_nil_2 | apply Forall_cons_2 ].
  all: try (left; reflexivity).
  all: try (right; reflexivity).
  all: cbn; try exact I; try reflexivity.
  all: repeat first [ apply Forall_nil_2 | apply Forall_cons_2 ].
  all: unfold field_values; set_solver.
Qed.

(** C2, as amended: the call passes the drift Hamiltonian, the list of
    control Hamiltonians, the initial and the target operator, the number
    of timeslots and the evolution time, the six listed options, and two
    options more: the log level and the flag that requests statistics. *)
Theorem call_passes_listed_options_and_two :
  exists c,
    calls (trace (run lib).2) = [c] /\
    positional c = [VQobj qutip.sigmaz; VList [VQobj qutip.sigmax];
                    VQobj (qutip.identity 2); VQobj (qutip.hadamard_transform 1);
                    VInt 10; VInt 10] /\
    keyword_names c = ["fid_err_targ"; "min_grad"; "max_iter"; "max_wall_time";
                       "out_file_ext"; "init_pulse_type"; "log_level"; "gen_stats"] /\
    kwarg c "log_level" = Some (VInt logging_INFO) /\
    kwarg c "gen_stats" = Some (VBool true) /\
    passes_exactly (trace (run lib).2) (listed_options ++ ["log_level"; "gen_stats"]).
Proof.
  unfold passes_exactly. exists notebook_call. rewrite run_calls.
  do 5 (split; [ reflexivity | ]).
  exists notebook_call. do 2 (split; [ reflexivity | ]).
  decide_now.
Qed.

(** C3, as amended: every field of the result that the notebook reads is
    one of those the data model lists, or the final evolution operator, the
    time grid, or the initial amplitudes. *)
Theorem fields_read :
  reads_only (trace (run lib).2)
             (data_model_fields ++ ["evo_full_final"; "time"; "initial_amps"]).
Proof.
  unfold reads_only. run_cases lib.
  all: decide_now.
Qed.

(** C4: the four operators passed to the optimiser are 2x2 matrices: the
    drift Hamiltonian is sigma-z, the one control Hamiltonian is sigma-x,
    the initial operator is the identity, and the target is the Hadamard
    gate. *)
Theorem operators_passed :
  exists H_d H_c U_0 U_targ rest kw,
    calls (trace (run lib).2)
    = [mkCall (VQobj H_d :: VList [VQobj H_c] :: VQobj U_0 :: VQobj U_targ :: rest) kw] /\
    qutip.qshape H_d = (2, 2) /\ qutip.qshape H_c = (2, 2) /\
    qutip.qshape U_0 = (2, 2) /\ qutip.qshape U_targ = (2, 2) /\
    qutip.data H_d = Gate.pauli_z /\
    qutip.data H_c = Gate.pauli_x /\
    qutip.data U_0 = Gate.identity2 /\
    qutip.data U_targ = Gate.hadamard.
Proof.
  rewrite run_calls.
  exists qutip.sigmaz, qutip.sigmax, (qutip.identity 2), (qutip.hadamard_transform 1).
  do 2 eexists. split; [ reflexivity | ].
  do 4 (split; [ reflexivity | ]).
  split; [ apply sigmaz_data | ].
  split; [ apply sigmax_data | ].
  split; [ apply identity_data | apply hadamard_data ].
Qed.


(** C7: the call passes no keyword that selects the algorithm or the
    method, so the library's default applies, which is L-BFGS-B. *)
Theorem method_is_library_default :
  exists c,
    calls (trace (run lib).2) = [c] /\
    Forall (fun k => kwarg c k = None) method_keywords /\
    optim_method c = "fmin_l_bfgs_b".
Proof.
  exists notebook_call. rewrite run_calls.
  split; [ reflexivity | ]. split; [ | reflexivity ].
  repeat constructor.
Qed.

(** C8: the operators handed to the optimiser meet its preconditions: the
    drift and the control Hamiltonian are Hermitian, the initial and the
    target operator are unitary, and all four have shape 2x2.  The target
    is the Hadamard matrix of entries [1/sqrt 2]; with any entry within one
    unit in the last place of that, as float64 holds it, the matrix is
    still Hermitian, of shape 2x2, and unitary to within four units in the
    last place; both float64 neighbours of [1/sqrt 2] are such entries. *)
Theorem operators_well_formed :
  (exists H_d H_c U_0 U_targ rest kw,
     calls (trace (run lib).2)
     = [mkCall (VQobj H_d :: VList [VQobj H_c] :: VQobj U_0 :: VQobj U_targ :: rest) kw] /\
     Mat.hermitian (qutip.data H_d) /\
     Mat.hermitian (qutip.data H_c) /\
     Mat.unitary (qutip.data U_0) /\
     Mat.unitary (qutip.data U_targ) /\
     Forall (fun q => qutip.qshape q = (2, 2)) [H_d; H_c; U_0; U_targ] /\
     qutip.data U_targ = Gate.hadamard_of (/ sqrt 2)) /\
  (forall h : R,
     (Rabs (h - / sqrt 2) <= float64.ulp)%R ->
     Mat.hermitian (Gate.hadamard_of h) /\
     Approx.unitary_within (4 * float64.ulp) (Gate.hadamard_of h) /\
     Mat.shape (Gate.hadamard_of h) = (2, 2)) /\
  (Rabs (float64.to_R float64.quotient - / sqrt 2) <= float64.ulp)%R /\
  (Rabs (float64.to_R float64.nearest - / sqrt 2) <= float64.ulp)%R.
Proof.
  split.
  { rewrite run_calls.
    exists qutip.sigmaz, qutip.sigmax, (qutip.identity 2), (qutip.hadamard_transform 1).
    do 2 eexists. split; [ reflexivity | ].
    rewrite sigmaz_data, sigmax_data, identity_data, hadamard_data.
    split; [ apply pauli_z_hermitian | ].
    split; [ apply pauli_x_hermitian | ].
    split; [ apply identity2_unitary | ].
    split; [ apply hadamard_unitary | ].
    split; [ repeat constructor | reflexivity ]. }
  split.
  { intros h Hh.
    split; [ apply hadamard_of_hermitian | ].
    split; [ apply (hadamard_of_unitary_within h Hh) | reflexivity ]. }
  split; [ exact quotient_near | exact nearest_near ].
Qed.

(** C9: the configuration values are the constants of the notebook, in the
    call and in the namespace the run leaves, and the file suffix is the
    template filled with the example name, the timeslot count and the
    pulse type. *)
Theorem configuration_constants :
  (exists c,
     calls (trace (run lib).2) = [c] /\
     positional c !! 4 = Some (VInt 10) /\
     positional c !! 5 = Some (VInt 10) /\
     kwarg c "fid_err_targ" = Some (VFloat 1e-10) /\
     kwarg c "max_iter" = Some (VInt 200) /\
     kwarg c "max_wall_time" = Some (VInt 120) /\
     kwarg c "min_grad" = Some (VFloat 1e-20) /\
     kwarg c "init_pulse_type" = Some (VStr "RND") /\
     kwarg c "out_file_ext" = Some (VStr "Hadamard_n_ts10_ptypeRND.txt")) /\
  globals (run lib).2 !! "n_ts" = Some (VInt 10) /\
  globals (run lib).2 !! "evo_time" = Some (VInt 10) /\
  globals (run lib).2 !! "fid_err_targ" = Some (VFloat 1e-10) /\
  globals (run lib).2 !! "max_iter" = Some (VInt 200) /\
  globals (run lib).2 !! "max_wall_time" = Some (VInt 120) /\
  globals (run lib).2 !! "min_grad" = Some (VFloat 1e-20) /\
  globals (run lib).2 !! "p_type" = Some (VStr "RND") /\
  globals (run lib).2 !! "f_ext" = Some (VStr "Hadamard_n_ts10_ptypeRND.txt") /\
  format "{}_n_ts{}_ptype{}.txt" [VStr "Hadamard"; VInt 10; VStr "RND"]
  = inr "Hadamard_n_ts10_ptypeRND.txt" /\
  (forall name n p,
     format "{}_n_ts{}_ptype{}.txt" [VStr name; VInt n; VStr p]
     = inr (name +:+ "_n_ts" +:+ pretty n +:+ "_ptype" +:+ p +:+ ".txt")).
Proof.
  split.
  { exists notebook_call. rewrite run_calls. repeat split; reflexivity. }
  rewrite !(run_globals_before_call lib) by decide_now.
  repeat split; try apply suffix_format; vm_compute; reflexivity.
Qed.

Section Files.

Hypothesis lib_writes : writes_amplitude_files lib.

(** C6: the only files a run writes are those the library writes in the
    one call, which are the initial and the final amplitudes under names
    made from the suffix passed as [out_file_ext]; with the suffix set to
    [None] no file is written. *)
Theorem only_amplitude_files_written :
  files_written (trace (run lib).2) = written (lib notebook_call) /\
  files_written (trace (run lib).2)
    ⊆ ["ctrl_amps_initial_Hadamard_n_ts10_ptypeRND.txt";
       "ctrl_amps_final_Hadamard_n_ts10_ptypeRND.txt"] /\
  match returned (lib notebook_call) with
  | inr _ =>
      files_written (trace (run lib).2)
      = ["ctrl_amps_initial_Hadamard_n_ts10_ptypeRND.txt";
         "ctrl_amps_final_Hadamard_n_ts10_ptypeRND.txt"]
  | inl _ => True
  end /\
  (forall ext, files_written (trace (run_with (cell18_as ext) lib).2)
               ⊆ amplitude_files (Some ext)) /\
  files_written (trace (run_with cell18_none lib).2) = [].
Proof using lib_writes.
  unfold run. rewrite (run_with_files _ _ lib cell18_runs).
  split; [ reflexivity | ].
  destruct (lib_writes notebook_call) as [Hsub Hall].
  split; [ exact Hsub | ].
  split; [ exact Hall | ].
  split.
  - intros ext. rewrite (run_with_files _ _ lib (cell18_as_runs ext)).
    apply (lib_writes (call_with ext)).
  - unfold cell18_none. rewrite (run_with_files _ _ lib (cell18_as_runs VNone)).
    destruct (lib_writes (call_with VNone)) as [Hnone _].
    destruct (written (lib (call_with VNone))) as [|f fs]; [ reflexivity | ].
    exfalso. specialize (Hnone f). cbn in Hnone. set_solver.
Qed.

End Files.

Section Plots.

Variable r : OptimResult.
Hypothesis lib_returns : returned (lib notebook_call) = inr r.
Hypothesis lib_shapes : well_shaped notebook_call r.

(** C10: when the library returns arrays of the agreed shapes, each of the
    two step plots is drawn over the result's time grid, with the first
    column of the amplitudes extended by its last element once; the
    plotted sequence has [n_ts + 1] entries, as many as the time grid; and
    the result bound in the namespace is still the one the library
    returned.  The plots are reached when the report cell before them gets
    through, which it does unless the wall time is beyond what a
    [timedelta] spans; then the run has stopped there and plots nothing. *)
Theorem step_plots_extend_first_column :
  (run lib).1 = (if reported r then inr tt else inl OverflowError) /\
  (exists col_i col_f,
     np.column (initial_amps r) 0 = Some col_i /\
     np.column (final_amps r) 0 = Some col_f /\
     steps (trace (run lib).2)
     = (if reported r
        then [(1%Z, time r, extend_last col_i); (2%Z, time r, extend_last col_f)]
        else []) /\
     length (extend_last col_i) = 10 + 1 /\
     length (extend_last col_f) = 10 + 1 /\
     length (time r) = 10 + 1) /\
  globals (run lib).2 !! "result" = Some (VResult r).
Proof using lib_returns lib_shapes.
  split; [ | split; [ | exact (run_result_bound lib r lib_returns) ] ].
  all: destruct lib_shapes as (Hi0 & Hf0 & Hi1 & Hf1 & Htime).
  all: change (num_tslots notebook_call) with 10 in *.
  all: destruct (panel_events_shaped 1 "initial_amps" (time r) (initial_amps r))
         as (col_i & Hci & Hli & Hpi); [ lia | lia | lia | ].
  all: destruct (panel_events_shaped 2 "final_amps" (time r) (final_amps r))
         as (col_f & Hcf & Hlf & Hpf); [ lia | lia | lia | ].
  all: rewrite (run_spec lib); cbn [fst snd globals trace].
  all: unfold expected_status, expected_trace, after_events.
  all: rewrite lib_returns.
  all: unfold reporting_events, completes, reporting, plotted, report_events,
              cell27_events, panel1, panel2.
  all: rewrite Hpi, Hpf; cbn [fst snd].
  - destruct (reported r); reflexivity.
  - exists col_i, col_f. do 2 (split; [ assumption | ]).
    split; [ destruct (reported r); reflexivity | ].
    unfold extend_last. rewrite !length_app, Hli, Hlf, Hi0, Hf0, Htime.
    repeat split; reflexivity.
Qed.

End Plots.

End Properties.

(** ** A run against the sample library *)

(** The run against the sample library, down to closed terms. *)
Ltac sample_run :=
  rewrite ?(run_spec sample_lib); cbn [fst snd globals trace];
  unfold expected_status, expected_trace, expected_globals, after_events,
         reporting_events, reporting_globals, completes, reporting, report_events;
  change (returned (sample_lib notebook_call)) with (@inr PyErr _ (sample_result 10));
  cbv iota; rewrite ?sample_reported.

(** C1, as stated, fails: the last cell displays the version table, which
    is no field of the result. *)
Lemma version_table_is_displayed_last :
  last (after_call (trace (run sample_lib).2)) = Some EvVersionTable /\
  reports EvVersionTable = false /\
  ~ only_reports_result (trace (run sample_lib).2).
Proof.
  split; [ sample_run; vm_compute; reflexivity | ].
  split; [ reflexivity | ].
  unfold only_reports_result. sample_run. decide_now.
Qed.

(** C2, as stated, fails: [log_level] and [gen_stats] are passed too. *)
Lemma log_level_and_gen_stats_are_passed :
  map keyword_names (calls (trace (run sample_lib).2))
  = [["fid_err_targ"; "min_grad"; "max_iter"; "max_wall_time"; "out_file_ext";
      "init_pulse_type"; "log_level"; "gen_stats"]] /\
  ~ passes_exactly (trace (run sample_lib).2) listed_options.
Proof.
  split; [ rewrite run_calls; reflexivity | ].
  intros (c & Hc & _ & Hperm).
  rewrite run_calls in Hc. injection Hc as <-.
  apply Permutation_length in Hperm. vm_compute in Hperm. discriminate Hperm.
Qed.

(** C3, as stated, fails: the final evolution is read and printed, and so
    are the time grid and the initial amplitudes. *)
Lemma final_evolution_is_read :
  attrs_read (trace (run sample_lib).2)
  = ["stats"; "evo_full_final"; "fid_err"; "grad_norm_final"; "termination_reason";
     "num_iter"; "wall_time"; "time"; "initial_amps"; "initial_amps"; "time";
     "final_amps"; "final_amps"] /\
  ~ reads_only (trace (run sample_lib).2) data_model_fields.
Proof.
  split; [ sample_run; vm_compute; reflexivity | ].
  unfold reads_only. sample_run. decide_now.
Qed.

Lemma sample_lib_writes_amplitude_files : writes_amplitude_files sample_lib.
Proof. intros c. split; reflexivity. Qed.

(** The sample library writes both files, and none once the suffix is
    [None]. *)
Lemma only_amplitude_files_written_witness :
  writes_amplitude_files sample_lib /\
  files_written (trace (run sample_lib).2)
  = ["ctrl_amps_initial_Hadamard_n_ts10_ptypeRND.txt";
     "ctrl_amps_final_Hadamard_n_ts10_ptypeRND.txt"] /\
  files_written (trace (run_with cell18_none sample_lib).2) = [].
Proof.
  split; [ exact sample_lib_writes_amplitude_files | ].
  split.
  - exact (proj1 (proj2 (proj2
             (only_amplitude_files_written sample_lib sample_lib_writes_amplitude_files)))).
  - exact (proj2 (proj2 (proj2 (proj2
             (only_amplitude_files_written sample_lib sample_lib_writes_amplitude_files))))).
Defined.

Lemma sample_result_well_shaped : well_shaped notebook_call (sample_result 10).
Proof. repeat split; cbn; lia. Qed.

(** With ten timeslots the sample amplitudes 0..9 are plotted as 0..9, 9
    over the time grid 0..10. *)
Lemma step_plots_extend_first_column_witness :
  returned (sample_lib notebook_call) = inr (sample_result 10) /\
  well_shaped notebook_call (sample_result 10) /\
  (run sample_lib).1 = inr tt /\
  steps (trace (run sample_lib).2)
  = [(1%Z, ramp 11, ramp 10 ++ [INR 9]); (2%Z, ramp 11, rev (ramp 10) ++ [INR 0])].
Proof.
  split; [ reflexivity | ].
  split; [ exact sample_result_well_shaped | ].
  destruct (step_plots_extend_first_column sample_lib (sample_result 10) eq_refl
              sample_result_well_shaped)
    as (Hrun & (col_i & col_f & Hci & Hcf & Hsteps & _) & _).
  rewrite sample_reported in Hrun, Hsteps.
  split; [ exact Hrun | ].
  rewrite Hsteps.
  injection Hci as <-. injection Hcf as <-. reflexivity.
Defined.


(** * Cells on their own *)

Lemma load_unbound x w : globals w !! x = None -> load x w = (inl (NameError x), w).
Proof. intros H. unfold load. rewrite H. reflexivity. Qed.

Lemma module_attr_unbound x m a w :
  globals w !! x = None -> module_attr x m a w = (inl (NameError x), w).
Proof.
  intros H. unfold module_attr. apply (bind_fail _ _ _ _ _ (load_unbound _ _ H)).
Qed.

(** A name bound to anything but the module has no attribute of it. *)
Lemma module_attr_other x m a v w :
  globals w !! x = Some v -> v <> VHandle (HModule m) ->
  module_attr x m a w = (inl (AttributeError a), w).
Proof.
  intros H Hv. unfold module_attr. rewrite (bind_step _ _ _ _ _ (load_bound _ _ _ H)).
  destruct v as [ | | | | | | | | | | | |[m'| | | | ]]; try reflexivity.
  destruct (String.eqb_spec m' m) as [->|Hne]; [ congruence | reflexivity ].
Qed.

(** Whether a value is the module [m]. *)
Lemma module_or_not (v : Value) m : v = VHandle (HModule m) \/ v <> VHandle (HModule m).
Proof.
  destruct v as [ | | | | | | | | | | | |[m'| | | | ]]; try (right; discriminate).
  destruct (String.eqb_spec m' m) as [->|Hne]; [ left; reflexivity | right; congruence ].
Qed.



(** The call reads every argument from the namespace as it is then. *)
Lemma call_arguments_reads w c w' :
  call_arguments w = (inr c, w') ->
  w' = w /\
  map Some (positional c)
  = map (fun x => globals w !! x) ["H_d"; "H_c"; "U_0"; "U_targ"; "n_ts"; "evo_time"] /\
  kwarg c "fid_err_targ" = globals w !! "fid_err_targ" /\
  kwarg c "min_grad" = globals w !! "min_grad" /\
  kwarg c "max_iter" = globals w !! "max_iter" /\
  kwarg c "max_wall_time" = globals w !! "max_wall_time" /\
  kwarg c "out_file_ext" = globals w !! "f_ext" /\
  kwarg c "init_pulse_type" = globals w !! "p_type" /\
  kwarg c "log_level" = globals w !! "log_level" /\
  kwarg c "gen_stats" = Some (VBool true).
Proof.
  unfold call_arguments.
  destruct (globals w !! "cpo") as [v|] eqn:Ecpo.
  2:{ rewrite (bind_fail _ _ _ _ _ (module_attr_unbound _ _ _ _ Ecpo)). discriminate. }
  destruct (module_or_not v "qutip.control.pulseoptim") as [->|Hv].
  2:{ rewrite (bind_fail _ _ _ _ _ (module_attr_other _ _ _ _ _ Ecpo Hv)). discriminate. }
  rewrite (bind_step _ _ _ _ _ (module_attr_bound _ _ _ _ Ecpo)).
  repeat lazymatch goal with
  | |- (load ?n ≫= ?k) ?w0 = _ -> _ =>
      let E := fresh "E" in
      destruct (globals w0 !! n) eqn:E;
      [ rewrite (bind_step _ _ _ _ _ (load_bound _ _ _ E))
      | rewrite (bind_fail _ _ _ _ _ (load_unbound _ _ E)); discriminate ]
  end.
  intros [= <- <-]. cbn [map positional].
  repeat match goal with
         | E : globals _ !! _ = Some _ |- _ => rewrite E; clear E
         end.
  repeat split; reflexivity.
Qed.



(** ** The file suffix *)

Lemma cell18_binds w name n p :
  globals w !! "example_name" = Some (VStr name) ->
  globals w !! "n_ts" = Some (VInt n) ->
  globals w !! "p_type" = Some (VStr p) ->
  cell18 w
  = (inr tt, mkWorld (<["f_ext" := VStr (suffix_of name n p)]> (globals w))
                     (trace w ++ [EvBind "f_ext"])).
Proof.
  intros Hname Hn Hp. unfold cell18. do 3 exec1.
  rewrite suffix_format. reflexivity.
Qed.

Lemma positional_lookup (c : Call) (vs : list (option Value)) k v :
  map Some (positional c) = vs -> vs !! k = Some (Some v) -> positional c !! k = Some v.
Proof.
  intros <- H. rewrite list_lookup_fmap in H.
  destruct (positional c !! k); cbn in H; congruence.
Qed.

(** X2: whatever example name, timeslot count and pulse type the
    namespace holds, running the suffix cell and then evaluating the call
    passes that timeslot count and pulse type together with the suffix
    made from them. *)
Theorem suffix_names_what_is_passed w name n p c w' :
  globals w !! "example_name" = Some (VStr name) ->
  globals w !! "n_ts" = Some (VInt n) ->
  globals w !! "p_type" = Some (VStr p) ->
  (cell18;; call_arguments) w = (inr c, w') ->
  positional c !! 4 = Some (VInt n) /\
  kwarg c "init_pulse_type" = Some (VStr p) /\
  kwarg c "out_file_ext" = Some (VStr (suffix_of name n p)).
Proof.
  intros Hname Hn Hp Hrun.
  rewrite (bind_step _ _ _ _ _ (cell18_binds w name n p Hname Hn Hp)) in Hrun.
  apply call_arguments_reads in Hrun
    as (_ & Hpos & _ & _ & _ & _ & Hext & Hpt & _).
  cbn [globals map] in *.
  rewrite lookup_insert_eq in Hext.
  repeat (rewrite lookup_insert_ne in Hpos by done).
  repeat (rewrite lookup_insert_ne in Hpt by done).
  rewrite Hn in Hpos. rewrite Hp in Hpt.
  split; [ apply (positional_lookup _ _ _ _ Hpos); reflexivity | ].
  split; assumption.
Qed.

Lemma suffix_names_what_is_passed_witness :
  globals pre_world !! "example_name" = Some (VStr "Hadamard") /\
  (cell18;; call_arguments) pre_world
  = (inr notebook_call, world_at_call (VStr notebook_suffix)) /\
  kwarg notebook_call "out_file_ext" = Some (VStr (suffix_of "Hadamard" 10 "RND")).
Proof.
  assert (Hname : globals pre_world !! "example_name" = Some (VStr "Hadamard"))
    by (vm_compute; reflexivity).
  assert (Hn : globals pre_world !! "n_ts" = Some (VInt 10))
    by (vm_compute; reflexivity).
  assert (Hp : globals pre_world !! "p_type" = Some (VStr "RND"))
    by (vm_compute; reflexivity).
  assert (Hrun : (cell18;; call_arguments) pre_world
                 = (inr notebook_call, world_at_call (VStr notebook_suffix)))
    by (vm_compute; reflexivity).
  split; [ exact Hname | ]. split; [ exact Hrun | ].
  exact (proj2 (proj2 (suffix_names_what_is_passed _ _ _ _ _ _ Hname Hn Hp Hrun))).
Defined.

(** X3: the suffix is computed when its cell runs and not again: if the
    timeslot cell is re-run with other values afterwards, the call passes
    the new timeslot count and evolution time with the suffix that names
    the old count. *)
Theorem suffix_is_not_recomputed w name n p m T c w' :
  globals w !! "example_name" = Some (VStr name) ->
  globals w !! "n_ts" = Some (VInt n) ->
  globals w !! "p_type" = Some (VStr p) ->
  (cell18;; cell10_as (VInt m) T;; call_arguments) w = (inr c, w') ->
  positional c !! 4 = Some (VInt m) /\
  positional c !! 5 = Some T /\
  kwarg c "out_file_ext" = Some (VStr (suffix_of name n p)).
Proof.
  intros Hname Hn Hp Hrun.
  rewrite (bind_step _ _ _ _ _ (cell18_binds w name n p Hname Hn Hp)) in Hrun.
  erewrite (bind_step (cell10_as _ _)) in Hrun by reflexivity.
  apply call_arguments_reads in Hrun
    as (_ & Hpos & _ & _ & _ & _ & Hext & _).
  cbn [globals map snd] in *.
  repeat (rewrite lookup_insert_ne in Hext by done).
  rewrite lookup_insert_eq in Hext.
  rewrite lookup_insert_eq in Hpos.
  rewrite (lookup_insert_ne _ "evo_time" "n_ts"), lookup_insert_eq in Hpos by done.
  split; [ apply (positional_lookup _ _ _ _ Hpos); reflexivity | ].
  split; [ apply (positional_lookup _ _ _ _ Hpos); reflexivity | assumption ].
Qed.

Lemma suffix_is_not_recomputed_witness :
  exists c w',
    (cell18;; cell10_as (VInt 20) (VInt 5);; call_arguments) pre_world = (inr c, w') /\
    positional c !! 4 = Some (VInt 20) /\
    kwarg c "out_file_ext" = Some (VStr "Hadamard_n_ts10_ptypeRND.txt").
Proof.
  assert (Hname : globals pre_world !! "example_name" = Some (VStr "Hadamard"))
    by (vm_compute; reflexivity).
  assert (Hn : globals pre_world !! "n_ts" = Some (VInt 10))
    by (vm_compute; reflexivity).
  assert (Hp : globals pre_world !! "p_type" = Some (VStr "RND"))
    by (vm_compute; reflexivity).
  destruct ((cell18;; cell10_as (VInt 20) (VInt 5);; call_arguments) pre_world)
    as [[e|c] w'] eqn:Hrun.
  { exfalso. vm_compute in Hrun. discriminate Hrun. }
  exists c, w'. split; [ reflexivity | ].
  destruct (suffix_is_not_recomputed _ _ _ _ _ _ _ _ Hname Hn Hp Hrun) as (H4 & _ & Hext).
  split; [ exact H4 | exact Hext ].
Defined.

Lemma string_length_app s t : String.length (s +:+ t) = String.length s + String.length t.
Proof. induction s as [|a s IH]; simpl; [ reflexivity | f_equal; exact IH ]. Qed.

Lemma string_app_inv_tail s s' t : s +:+ t = s' +:+ t -> s = s'.
Proof.
  revert s'. induction s as [|a s IH]; intros [|a' s'] H; simpl in H.
  - reflexivity.
  - apply (f_equal String.length) in H. rewrite !string_length_app in H. simpl in H. lia.
  - apply (f_equal String.length) in H. rewrite !string_length_app in H. simpl in H. lia.
  - injection H as -> H. f_equal. apply IH, H.
Qed.

(** Two strings free of [c] that are followed by [c] end at the same
    place. *)
Lemma split_at_first c s s' t t' :
  free_of c s -> free_of c s' ->
  s +:+ String c t = s' +:+ String c t' -> s = s' /\ t = t'.
Proof.
  revert s'. induction s as [|a s IH]; intros [|a' s'] Hs Hs' H; simpl in *.
  - injection H as ->. split; reflexivity.
  - injection H as <- _. destruct Hs' as [Hne _]. congruence.
  - injection H as -> _. destruct Hs as [Hne _]. congruence.
  - injection H as -> H. destruct Hs as [_ Hs], Hs' as [_ Hs'].
    destruct (IH s' Hs Hs' H) as [-> ->]. split; reflexivity.
Qed.

Lemma pretty_N_go_free c x s :
  (forall d, pretty_N_char d <> c) -> free_of c s -> free_of c (pretty_N_go x s).
Proof.
  intros Hc. revert s. induction (N.lt_wf_0 x) as [x _ IH]; intros s Hs.
  assert (x = 0 \/ 0 < x)%N as [-> | Hpos] by lia.
  - rewrite pretty_N_go_0. exact Hs.
  - rewrite pretty_N_go_step by exact Hpos. apply IH.
    + apply N.div_lt; [ exact Hpos | reflexivity ].
    + cbn. split; [ apply Hc | exact Hs ].
Qed.

Lemma digit_is_no_underscore d : pretty_N_char d <> "_"%char.
Proof. unfold pretty_N_char. repeat case_match; discriminate. Qed.

Lemma pretty_Z_free (n : Z) : free_of "_" (pretty n).
Proof.
  assert (Hpos : forall x : positive, free_of "_" (pretty x)).
  { intros x. unfold pretty, pretty_positive, pretty, pretty_N.
    case_decide; [ cbn; split; [ discriminate | exact I ] | ].
    apply pretty_N_go_free; [ apply digit_is_no_underscore | exact I ]. }
  destruct n as [|x|x]; unfold pretty, pretty_Z.
  - cbn. split; [ discriminate | exact I ].
  - apply Hpos.
  - cbn. split; [ discriminate | apply Hpos ].
Qed.

(** X4: with the example name fixed, the suffix tells runs apart: two
    suffixes are equal only if both the timeslot counts and the pulse types
    are. *)
Theorem suffix_tells_runs_apart name n p n' p' :
  format "{}_n_ts{}_ptype{}.txt" [VStr name; VInt n; VStr p]
  = format "{}_n_ts{}_ptype{}.txt" [VStr name; VInt n'; VStr p'] ->
  n = n' /\ p = p'.
Proof.
  rewrite !suffix_format. intros [= H].
  apply (inj (String.append name)) in H. cbn in H.
  injection H as H.
  apply split_at_first in H as [Hn H]; [ | apply pretty_Z_free | apply pretty_Z_free ].
  apply (inj pretty) in Hn.
  injection H as H. apply string_app_inv_tail in H.
  split; assumption.
Qed.

Lemma suffix_tells_runs_apart_witness :
  format "{}_n_ts{}_ptype{}.txt" [VStr "Hadamard"; VInt 10; VStr "RND"]
  = format "{}_n_ts{}_ptype{}.txt" [VStr "Hadamard"; VInt 10; VStr "RND"] /\
  10%Z = 10%Z /\ "RND" = "RND".
Proof.
  split; [ reflexivity | ].
  exact (suffix_tells_runs_apart "Hadamard" 10 "RND" 10 "RND" eq_refl).
Defined.

(** * Runs that stop early *)

Lemma norm_index_empty i : np.norm_index 0 i = None.
Proof.
  unfold np.norm_index. change (Z.of_nat 0) with 0%Z. cbv zeta.
  repeat match goal with
         | |- context [(?a <? ?b)%Z] => destruct (Z.ltb_spec a b)
         | |- context [(?a <=? ?b)%Z] => destruct (Z.leb_spec a b)
         end; cbn [andb]; try reflexivity; lia.
Qed.

Lemma hstack_column_length col x :
  length (np.hstack [np.Arr col; np.Scalar x]) = S (length col).
Proof.
  unfold np.hstack. cbn [map np.atleast_1d concat].
  rewrite app_nil_r, length_app. cbn [length]. lia.
Qed.

(** A panel is drawn exactly when its array has a row and a column and the
    time grid has one point more than the array has rows. *)
Lemma panel_drawn_iff ax amps_attr tm a :
  (panel_events ax amps_attr tm a).2 = inr tt <->
  0 < np.shape0 a /\ 0 < np.shape1 a /\ length tm = S (np.shape0 a).
Proof.
  split.
  - intros H.
    destruct (Nat.eq_dec (np.shape1 a) 0) as [E1|].
    { unfold panel_events, np.column in H. rewrite E1, norm_index_empty in H.
      discriminate H. }
    destruct (Nat.eq_dec (np.shape0 a) 0) as [E0|].
    { unfold panel_events, np.item in H. rewrite E0, norm_index_empty in H.
      destruct (np.column a 0); discriminate H. }
    split; [ lia | ]. split; [ lia | ].
    unfold panel_events in H.
    rewrite (column_first a), (item_last a) in H by lia. cbv zeta in H.
    rewrite hstack_column_length, length_map, length_seq in H.
    destruct (Nat.eqb_spec (length tm) (S (np.shape0 a))) as [E|E];
      [ exact E | discriminate H ].
  - intros (H0 & H1 & Htm).
    destruct (panel_events_shaped ax amps_attr tm a H0 H1 Htm) as (col & _ & _ & ->).
    reflexivity.
Qed.

(** A panel that is not drawn has raised [IndexError] or [ValueError]. *)
Lemma panel_ends ax amps_attr tm a :
  (panel_events ax amps_attr tm a).2 = inr tt \/
  (panel_events ax amps_attr tm a).2 = inl IndexError \/
  (panel_events ax amps_attr tm a).2 = inl ValueError.
Proof.
  unfold panel_events.
  destruct (np.column a 0) as [col|]; [ | right; left; reflexivity ].
  destruct (np.item a (-1) 0) as [x|]; [ | right; left; reflexivity ].
  cbv zeta.
  destruct (length tm =? length (np.hstack [np.Arr col; np.Scalar x]));
    [ left | right; right ]; reflexivity.
Qed.

(** When a run gets through all its cells. *)
Lemma run_completes_when lib :
  (run lib).1 = inr tt <->
  exists r,
    returned (lib notebook_call) = inr r /\
    reported r = true /\
    0 < np.shape0 (initial_amps r) /\ 0 < np.shape1 (initial_amps r) /\
    length (time r) = S (np.shape0 (initial_amps r)) /\
    0 < np.shape0 (final_amps r) /\ 0 < np.shape1 (final_amps r) /\
    length (time r) = S (np.shape0 (final_amps r)).
Proof.
  rewrite (run_spec lib). cbn [fst]. unfold expected_status.
  destruct (returned (lib notebook_call)) as [e|r].
  - split; [ discriminate | intros (r & [=] & _) ].
  - unfold reporting, plotted, panel1, panel2.
    pose proof (panel_drawn_iff 1 "initial_amps" (time r) (initial_amps r)) as Hi.
    pose proof (panel_drawn_iff 2 "final_amps" (time r) (final_amps r)) as Hf.
    destruct (reported r) eqn:Erep.
    2:{ split; [ discriminate | intros (r' & [= <-] & Hrep & _); congruence ]. }
    destruct (panel_events 1 "initial_amps" (time r) (initial_amps r)).2 as [e1|[]].
    { split; [ discriminate | intros (r' & [= <-] & _ & H0 & H1 & Ht & _) ].
      destruct Hi as [_ Hi]. discriminate (Hi (conj H0 (conj H1 Ht))). }
    destruct (panel_events 2 "final_amps" (time r) (final_amps r)).2 as [e2|[]].
    { split; [ discriminate | intros (r' & [= <-] & _ & _ & _ & _ & H0 & H1 & Ht) ].
      destruct Hf as [_ Hf]. discriminate (Hf (conj H0 (conj H1 Ht))). }
    split; [ intros _; exists r | reflexivity ].
    split; [ reflexivity | ]. split; [ exact Erep | ].
    destruct Hi as [Hi _], Hf as [Hf _].
    destruct (Hi eq_refl) as (? & ? & ?), (Hf eq_refl) as (? & ? & ?).
    repeat split; assumption.
Qed.

(** X5: a run gets through all its cells exactly when the library
    returns a result whose wall time a [timedelta] can hold, whose initial
    and final amplitude arrays each have at least one row and one column,
    and whose time grid has one point more than either array has rows.
    Otherwise the library raised, or the report cell stops at its last
    line, or a subscript or a step call of the plotting cell fails. *)
Theorem run_completes_iff lib :
  (run lib).1 = inr tt <->
  exists r,
    returned (lib notebook_call) = inr r /\
    (datetime.min_seconds <= wall_time r < datetime.max_seconds)%R /\
    0 < np.shape0 (initial_amps r) /\ 0 < np.shape1 (initial_amps r) /\
    length (time r) = S (np.shape0 (initial_amps r)) /\
    0 < np.shape0 (final_amps r) /\ 0 < np.shape1 (final_amps r) /\
    length (time r) = S (np.shape0 (final_amps r)).
Proof.
  rewrite run_completes_when. unfold reported.
  split; intros (r & Hr & Hw & H); exists r; (split; [ exact Hr | ]);
    (split; [ apply in_range_bounds, Hw | exact H ]).
Qed.

Lemma run_completes_iff_witness : (run sample_lib).1 = inr tt.
Proof.
  apply (proj2 (run_completes_iff sample_lib)).
  exists (sample_result 10). split; [ reflexivity | ].
  split; [ unfold datetime.min_seconds, datetime.max_seconds; cbn [wall_time sample_result]; lra | ].
  cbn. repeat split; lia.
Defined.

(** X6: once the library has returned, the report of the statistics, the
    final evolution and the summary down to the iteration count are
    printed whatever the result holds.  The rest of the run can only raise
    [OverflowError], which it does exactly when the wall time is beyond
    what a [timedelta] spans, [IndexError] or [ValueError]; and the
    version table is shown exactly when the run completes. *)
Theorem returned_result_is_always_summarised lib r :
  returned (lib notebook_call) = inr r ->
  (exists rest,
     after_call (trace (run lib).2) = EvBind "result" :: summary_events r ++ rest) /\
  ((run lib).1 = inr tt \/ (run lib).1 = inl OverflowError \/
   (run lib).1 = inl IndexError \/ (run lib).1 = inl ValueError) /\
  ((run lib).1 = inl OverflowError <->
   ~ (datetime.min_seconds <= wall_time r < datetime.max_seconds)%R) /\
  (last (trace (run lib).2) = Some EvVersionTable <-> (run lib).1 = inr tt).
Proof.
  intros Hret. rewrite (run_spec lib). cbn [fst snd trace].
  unfold expected_status, expected_trace, after_events. rewrite Hret.
  split.
  { unfold reporting_events, report_events. rewrite <- app_assoc.
    eexists. reflexivity. }
  rewrite <- in_range_bounds.
  panel_cases.
  all: split; [ first [ left; reflexivity
                      | right; left; reflexivity
                      | right; right; left; reflexivity
                      | right; right; right; reflexivity ] | ].
  all: split; split; intros H;
    first [ reflexivity | discriminate H | discriminate | exfalso; apply H; reflexivity ].
Qed.

Lemma returned_result_is_always_summarised_witness :
  returned (two_control_lib notebook_call) = inr (two_control_result 10) /\
  (run two_control_lib).1 <> inl OverflowError.
Proof.
  split; [ reflexivity | ].
  destruct (returned_result_is_always_summarised two_control_lib
              (two_control_result 10) eq_refl) as (_ & _ & Hover & _).
  intros H. apply Hover in H. apply H.
  unfold datetime.min_seconds, datetime.max_seconds.
  cbn [wall_time two_control_result]. lra.
Defined.

(** ** What the plots depend on *)

Lemma panel_events_same_first_column ax amps_attr tm a b :
  same_first_column a b ->
  panel_events ax amps_attr tm a = panel_events ax amps_attr tm b.
Proof.
  intros (Hrows & Ha & Hb & Hcol).
  assert (Hc : np.column a 0 = np.column b 0).
  { rewrite (column_first a Ha), (column_first b Hb), <- Hrows. f_equal.
    apply map_ext_in. intros i Hi. apply Hcol. apply in_seq in Hi. lia. }
  assert (Hi : np.item a (-1) 0 = np.item b (-1) 0).
  { destruct (Nat.eq_dec (np.shape0 a) 0) as [E|E].
    - unfold np.item. rewrite <- Hrows, E, norm_index_empty. reflexivity.
    - rewrite (item_last a), (item_last b) by lia. rewrite <- Hrows.
      f_equal. apply Hcol. lia. }
  unfold panel_events. rewrite Hc, Hi. reflexivity.
Qed.

(** X7: the plots show the first control only: two results with the same
    time grid whose amplitude arrays have as many rows and the same first
    column, and whose wall times the report cell both takes or both
    refuses, give the same step plots and the same end of the run,
    whatever their other columns hold. *)
Theorem plots_show_first_control_only lib1 lib2 r1 r2 :
  returned (lib1 notebook_call) = inr r1 ->
  returned (lib2 notebook_call) = inr r2 ->
  reported r1 = reported r2 ->
  time r1 = time r2 ->
  same_first_column (initial_amps r1) (initial_amps r2) ->
  same_first_column (final_amps r1) (final_amps r2) ->
  steps (trace (run lib1).2) = steps (trace (run lib2).2) /\
  (run lib1).1 = (run lib2).1.
Proof.
  intros H1 H2 Hrep Ht Hi Hf.
  rewrite (run_spec lib1), (run_spec lib2). cbn [fst snd trace].
  unfold expected_status, expected_trace, after_events. rewrite H1, H2.
  unfold reporting_events, completes, reporting, plotted, report_events,
         cell27_events, panel1, panel2.
  rewrite (panel_events_same_first_column 1 "initial_amps" _ _ _ Hi).
  rewrite (panel_events_same_first_column 2 "final_amps" _ _ _ Hf).
  rewrite Ht, Hrep.
  destruct (reported r2).
  all: destruct (panel_events 1 "initial_amps" (time r2) (initial_amps r2)) as [ev1 [e1|[]]].
  all: destruct (panel_events 2 "final_amps" (time r2) (final_amps r2)) as [ev2 [e2|[]]].
  all: cbn [fst snd].
  all: split; [ | reflexivity ].
  all: unfold steps; rewrite !omap_app; reflexivity.
Qed.

Lemma two_controls_same_first_column n xs :
  length xs = n ->
  same_first_column (np.mkArray2 n 1 xs)
                    (np.mkArray2 n 2 (concat (map (fun x => [x; 0%R]) xs))).
Proof.
  intros Hlen. unfold same_first_column, np.get. cbn [np.shape0 np.shape1 np.buf].
  split; [ reflexivity | ]. split; [ lia | ]. split; [ lia | ].
  subst n. induction xs as [|x xs IH]; intros i Hi; cbn in Hi; [ lia | ].
  destruct i as [|i]; [ reflexivity | ].
  replace (S i * 1 + 0) with (S (i * 1 + 0)) by lia.
  replace (S i * 2 + 0) with (S (S (i * 2 + 0))) by lia.
  cbn [map concat app nth]. apply IH. lia.
Qed.

Lemma plots_show_first_control_only_witness :
  same_first_column (initial_amps (sample_result 10))
                    (initial_amps (two_control_result 10)) /\
  steps (trace (run sample_lib).2) = steps (trace (run two_control_lib).2).
Proof.
  assert (Hi : same_first_column (initial_amps (sample_result 10))
                                 (initial_amps (two_control_result 10))).
  { apply two_controls_same_first_column. reflexivity. }
  assert (Hf : same_first_column (final_amps (sample_result 10))
                                 (final_amps (two_control_result 10))).
  { apply two_controls_same_first_column. reflexivity. }
  split; [ exact Hi | ].
  exact (proj1 (plots_show_first_control_only sample_lib two_control_lib
                  (sample_result 10) (two_control_result 10)
                  eq_refl eq_refl eq_refl eq_refl Hi Hf)).
Defined.

(** ** The namespace *)

(** X8: a run leaves every binding made before the call as it was: the
    only names bound after the call are the result, the figure, the two
    axes and the imported version table. *)
Theorem bindings_before_call_survive lib x :
  x ∉ names_after_call ->
  globals (run lib).2 !! x = globals (world_at_call (VStr notebook_suffix)) !! x.
Proof. apply run_globals_before_call. Qed.

Lemma bindings_before_call_survive_witness :
("n_ts" ∉ names_after_call) /\
  globals (run sample_lib).2 !! "n_ts" = Some (VInt 10).
Proof.
  assert (Hx : "n_ts" ∉ names_after_call) by decide_now.
  split; [ exact Hx | ].
  rewrite (bindings_before_call_survive sample_lib "n_ts" Hx).
  vm_compute. reflexivity.
Defined.

(** X9: the three parameter cells (timeslots, termination conditions,
    pulse type) never raise, leave the same namespace in either order, and
    leave it unchanged when run a second time. *)
Theorem parameter_cells_commute w :
  (cell10 w).1 = inr tt /\ (cell13 w).1 = inr tt /\ (cell16 w).1 = inr tt /\
  globals ((cell10;; cell13) w).2 = globals ((cell13;; cell10) w).2 /\
  globals ((cell10;; cell16) w).2 = globals ((cell16;; cell10) w).2 /\
  globals ((cell13;; cell16) w).2 = globals ((cell16;; cell13) w).2 /\
  globals ((cell10;; cell10) w).2 = globals (cell10 w).2 /\
  globals ((cell13;; cell13) w).2 = globals (cell13 w).2 /\
  globals ((cell16;; cell16) w).2 = globals (cell16 w).2.
Proof.
  do 3 (split; [ reflexivity | ]).
  unfold cell10, cell13, cell16, store, mbind, Py_bind. cbn [fst snd globals trace].
  repeat split; apply map_eq; intros k;
    rewrite ?lookup_insert; repeat case_decide; simplify_eq; reflexivity.
Qed.

(** X10: in a namespace without [result], and with [plt] the module the
    notebook imports under that name, the report cell raises [NameError]
    before printing anything, while the plotting cell first creates the
    figure and the first axes with title and label, and raises only when
    it reads the result for the step plot. *)
Theorem report_cells_need_the_result w :
  globals w !! "plt" = Some (VHandle (HModule "matplotlib.pyplot")) ->
  globals w !! "result" = None ->
  cell24 w = (inl (NameError "result"), w) /\
  cell27 w
  = (inl (NameError "result"),
     mkWorld (<["ax1" := VHandle (HAxes 1)]> (<["fig1" := VHandle HFigure]> (globals w)))
             (trace w ++ [EvPlot PFigure; EvBind "fig1"; EvPlot (PAddSubplot 2 1 1);
                          EvBind "ax1"; EvPlot (PSetTitle 1 "Initial control amps");
                          EvPlot (PSetYlabel 1 "Control amplitude")])).
Proof.
  intros Hplt Hres. split.
  - unfold cell24, attr.
    apply bind_fail. apply bind_fail. apply load_unbound, Hres.
  - unfold cell27. repeat exec1.
    erewrite (bind_fail (step_panel _ _))
      by (unfold step_panel; exec1; unfold attr;
          apply bind_fail; apply bind_fail; apply load_unbound;
          cbn [globals]; repeat (rewrite lookup_insert_ne by done); exact Hres).
    rewrite <- !app_assoc. reflexivity.
Qed.

Lemma report_cells_need_the_result_witness :
  globals (world_at_call VNone) !! "plt" = Some (VHandle (HModule "matplotlib.pyplot")) /\
  globals (world_at_call VNone) !! "result" = None /\
  cell24 (world_at_call VNone) = (inl (NameError "result"), world_at_call VNone).
Proof.
  assert (Hplt : globals (world_at_call VNone) !! "plt"
                 = Some (VHandle (HModule "matplotlib.pyplot")))
    by (vm_compute; reflexivity).
  assert (Hres : globals (world_at_call VNone) !! "result" = None)
    by (vm_compute; reflexivity).
  split; [ exact Hplt | ]. split; [ exact Hres | ].
  exact (proj1 (report_cells_need_the_result _ Hplt Hres)).
Defined.

(** * The algebra of the operators *)

Section Algebra.
Import Cplx Mat Lie Approx.

Ltac entries tac :=
  unfold hermitian, unitary, comm, msub, madd, mscale, tr, det2, dag, mmul, eye,
         table, dot, entry, n_rows, n_cols, conj, mul, add, zero, one, of_R, i;
  cbn [length seq map nth foldr fst snd Nat.eqb];
  repeat match goal with
         | |- _ /\ _ => split
         | |- _ :: _ = _ :: _ => f_equal
         | |- (_, _) = (_, _) => apply C_eq
         end;
  try reflexivity; tac.

(** X11: the drift and the control Hamiltonian do not commute: their
    commutator is 2i sigma-y, the three Pauli operators are closed under
    the commutator and linearly independent over the reals, so the two
    Hamiltonians generate a three-dimensional algebra, which is what the
    notebook's "fully controllable" rests on. *)
Theorem drift_and_control_generate_su2 :
  comm (qutip.data qutip.sigmaz) (qutip.data qutip.sigmax) = mscale (0%R, 2%R) pauli_y /\
  comm (qutip.data qutip.sigmax) pauli_y = mscale (0%R, 2%R) (qutip.data qutip.sigmaz) /\
  comm pauli_y (qutip.data qutip.sigmaz) = mscale (0%R, 2%R) (qutip.data qutip.sigmax) /\
  hermitian pauli_y /\
  forall a b c : R,
    madd (mscale (of_R a) (qutip.data qutip.sigmax))
         (madd (mscale (of_R b) pauli_y) (mscale (of_R c) (qutip.data qutip.sigmaz)))
    = zero2 ->
    a = 0%R /\ b = 0%R /\ c = 0%R.
Proof.
  unfold qutip.sigmaz, qutip.sigmax, pauli_y, zero2. cbn [qutip.data].
  split; [ entries lra | ].
  split; [ entries lra | ].
  split; [ entries lra | ].
  split; [ entries lra | ].
  intros a b c. entries idtac.
  intros H. injection H as H00 _ H01r H01i _.
  repeat split; lra.
Qed.

(** The Hadamard matrix of entries [h]: exact facts, whatever [h] is. *)
Lemma hadamard_of_traceless h : tr (Gate.hadamard_of h) = zero.
Proof. unfold Gate.hadamard_of. entries lra. Qed.

Lemma hadamard_of_phase_not_hermitian h :
  h <> 0%R -> ~ hermitian (mscale i (Gate.hadamard_of h)).
Proof.
  intros Hh. unfold Gate.hadamard_of. entries idtac.
  intros H. injection H as _ H _. lra.
Qed.

(** The Hadamard matrix of entries [h] within one unit in the last place
    of [1/sqrt 2]: its square, its determinant, and the same for [i] times
    it, to within four units in the last place. *)
Lemma hadamard_of_rounded h :
  (Rabs (h - / sqrt 2) <= float64.ulp)%R ->
  h <> 0%R /\
  within (4 * float64.ulp) (mmul (Gate.hadamard_of h) (Gate.hadamard_of h)) Gate.identity2 /\
  close (4 * float64.ulp) (det2 (Gate.hadamard_of h)) (of_R (-1)) /\
  unitary_within (4 * float64.ulp) (mscale i (Gate.hadamard_of h)) /\
  close (4 * float64.ulp) (det2 (mscale i (Gate.hadamard_of h))) (of_R 1).
Proof.
  intros Hh. pose proof (rounded_square_near h Hh) as Hd.
  pose proof inv_sqrt2_bounds as Hb.
  assert (Hulp : (0 < float64.ulp <= / 4)%R).
  { unfold float64.ulp. split; [ apply Rinv_0_lt_compat; lra | ].
    apply Rinv_le_contravar; lra. }
  assert (Hpos : (0 < h)%R).
  { unfold Rabs in Hh. destruct (Rcase_abs (h - / sqrt 2)); lra. }
  assert (Hz : forall x : R, x = 0%R -> (Rabs x <= 4 * float64.ulp)%R).
  { intros x ->. rewrite Rabs_R0. lra. }
  assert (Hone : forall x : R, (x = h * h + h * h - 1)%R -> (Rabs x <= 4 * float64.ulp)%R).
  { intros x ->. exact Hd. }
  assert (Hneg : forall x : R,
             (x = - (h * h + h * h - 1))%R -> (Rabs x <= 4 * float64.ulp)%R).
  { intros x ->. rewrite Rabs_Ropp. exact Hd. }
  split; [ lra | ].
  unfold unitary_within, within, close, Gate.hadamard_of, Gate.identity2.
  unfold mscale, det2, dag, mmul, eye, table, dot, entry, n_rows, n_cols,
         conj, mul, add, zero, one, of_R, i.
  cbn [length seq map nth foldr fst snd Nat.eqb].
  repeat match goal with
         | |- _ /\ _ => split
         | |- Forall2 _ _ _ => constructor
         end.
  all: cbn [fst snd].
  all: try reflexivity.
  all: first [ apply Hone; lra | apply Hneg; lra | apply Hz; lra ].
Qed.

(** X12: of the operators passed, the identity and the Hadamard target are
    Hermitian like the two Hamiltonians, as the recorded log says of all
    four; the Hamiltonians and the target are traceless; the target is its
    own inverse and has determinant -1, so it is reached only up to a
    global phase: i times the target is unitary with determinant 1 and,
    like the final evolution in the recorded output, not Hermitian.  With
    the entries float64 holds for [1/sqrt 2], the target is still
    traceless and i times it not Hermitian, and the products and
    determinants are those to within four units in the last place. *)
Theorem target_up_to_global_phase lib :
  (exists H_d H_c U_0 U_targ rest kw,
     calls (trace (run lib).2)
     = [mkCall (VQobj H_d :: VList [VQobj H_c] :: VQobj U_0 :: VQobj U_targ :: rest) kw] /\
     hermitian (qutip.data U_0) /\
     hermitian (qutip.data U_targ) /\
     tr (qutip.data H_d) = zero /\
     tr (qutip.data H_c) = zero /\
     tr (qutip.data U_targ) = zero /\
     mmul (qutip.data U_targ) (qutip.data U_targ) = qutip.data U_0 /\
     det2 (qutip.data U_targ) = of_R (-1) /\
     unitary (mscale i (qutip.data U_targ)) /\
     det2 (mscale i (qutip.data U_targ)) = of_R 1 /\
     ~ hermitian (mscale i (qutip.data U_targ)) /\
     qutip.data U_targ = Gate.hadamard_of (/ sqrt 2)) /\
  (forall h : R,
     (Rabs (h - / sqrt 2) <= float64.ulp)%R ->
     hermitian (Gate.hadamard_of h) /\
     tr (Gate.hadamard_of h) = zero /\
     ~ hermitian (mscale i (Gate.hadamard_of h)) /\
     within (4 * float64.ulp)
            (mmul (Gate.hadamard_of h) (Gate.hadamard_of h)) Gate.identity2 /\
     close (4 * float64.ulp) (det2 (Gate.hadamard_of h)) (of_R (-1)) /\
     unitary_within (4 * float64.ulp) (mscale i (Gate.hadamard_of h)) /\
     close (4 * float64.ulp) (det2 (mscale i (Gate.hadamard_of h))) (of_R 1)).
Proof.
  split.
  - rewrite run_calls.
    exists qutip.sigmaz, qutip.sigmax, (qutip.identity 2), (qutip.hadamard_transform 1).
    do 2 eexists. split; [ reflexivity | ].
    rewrite identity_data, !hadamard_data.
    pose proof inv_sqrt2_sqr as Hh.
    assert (Hpos : (0 < / sqrt 2)%R).
    { apply Rinv_0_lt_compat, sqrt_lt_R0. lra. }
    unfold qutip.sigmaz, qutip.sigmax, Gate.identity2, Gate.hadamard, Gate.hadamard_of.
    cbn [qutip.data].
    set (h := (/ sqrt 2)%R) in *.
    split; [ entries lra | ].
    split; [ entries lra | ].
    split; [ entries lra | ].
    split; [ entries lra | ].
    split; [ entries lra | ].
    split; [ entries nra | ].
    split; [ entries nra | ].
    split; [ entries nra | ].
    split; [ entries nra | ].
    split; [ | reflexivity ].
    entries idtac. intros H. injection H as _ H _. lra.
  - intros h Hh.
    destruct (hadamard_of_rounded h Hh) as (Hne & Hsq & Hdet & Hun & Hdet').
    split; [ apply hadamard_of_hermitian | ].
    split; [ apply hadamard_of_traceless | ].
    split; [ apply (hadamard_of_phase_not_hermitian h Hne) | ].
    split; [ exact Hsq | ]. split; [ exact Hdet | ].
    split; [ exact Hun | exact Hdet' ].
Qed.

End Algebra.

(** * Run All in a kernel that has run before *)

Lemma setup_anywhere w :
  exists g,
    (preamble;; cell18) w
    = (inr tt, mkWorld g (trace w ++ preamble_events ++ [EvBind "f_ext"])) /\
    call_arguments (mkWorld g (trace w ++ preamble_events ++ [EvBind "f_ext"]))
    = (inr notebook_call, mkWorld g (trace w ++ preamble_events ++ [EvBind "f_ext"])) /\
    g !! "datetime" = Some (VHandle (HModule "datetime")) /\
    g !! "np" = Some (VHandle (HModule "numpy")) /\
    g !! "plt" = Some (VHandle (HModule "matplotlib.pyplot")) /\
    g !! "result" = globals w !! "result" /\
    g !! "print" = globals w !! "print".
Proof.
  eexists. split; [ | split; [ | split; [ | split; [ | split; [ | split ] ] ] ] ].
  - unfold preamble, cell3, cell4, cell7, cell10, cell13, cell16, cell18,
           import_module, from_import.
    repeat first [ exec1 | rewrite bind_assoc ].
    rewrite (suffix_format "Hadamard" 10 "RND").
    erewrite (bind_step (lift _)) by reflexivity.
    rewrite store_runs. cbn [globals trace]. rewrite <- !app_assoc. reflexivity.
  - unfold call_arguments. repeat exec1. reflexivity.
  - lookup_now.
  - lookup_now.
  - lookup_now.
  - repeat (rewrite lookup_insert_ne by done). reflexivity.
  - repeat (rewrite lookup_insert_ne by done). reflexivity.
Qed.

(** X13: Run All does not depend on what the kernel held before, as long
    as it does not shadow [print], the one name the notebook reads and
    never binds: started in any such namespace, the notebook ends as it
    does in a fresh one and adds to the trace exactly the events of a
    fresh run. *)
Theorem run_all_ignores_kernel_state lib w :
  globals w !! "print" = None ->
  (notebook lib w).1 = (run lib).1 /\
  trace (notebook lib w).2 = trace w ++ trace (run lib).2.
Proof.
  intros Hprint.
  destruct (setup_anywhere w) as (g & Hsetup & Hargs & Hdt & Hnp & Hplt & _ & Hpr).
  rewrite Hprint in Hpr.
  unfold notebook, notebook_with.
  rewrite <- (bind_assoc preamble (fun _ => cell18)).
  rewrite (bind_step _ _ _ _ _ Hsetup).
  rewrite (tail_spec lib _ _ Hargs Hdt Hnp Hplt Hpr).
  rewrite (run_spec lib). cbn [fst snd trace]. split; [ reflexivity | ].
  unfold expected_trace. rewrite <- !app_assoc. reflexivity.
Qed.

(** Run All a second time, in the kernel the first run left. *)
Lemma run_all_ignores_kernel_state_witness :
  globals (run sample_lib).2 !! "print" = None /\
  (notebook sample_lib (run sample_lib).2).1 = inr tt.
Proof.
  assert (Hprint : globals (run sample_lib).2 !! "print" = None).
  { rewrite (run_globals_before_call sample_lib "print") by decide_now.
    vm_compute. reflexivity. }
  split; [ exact Hprint | ].
  rewrite (proj1 (run_all_ignores_kernel_state sample_lib _ Hprint)).
  exact run_sample_completes.
Defined.

(** X14: when the notebook is run again in a kernel that still holds a
    result and the library raises this time, the earlier result stays
    bound to [result]. *)
Theorem earlier_result_survives_failed_rerun lib w v e :
  globals w !! "result" = Some v ->
  returned (lib notebook_call) = inl e ->
  (notebook lib w).1 = inl e /\
  globals (notebook lib w).2 !! "result" = Some v.
Proof.
  intros Hres Hfail.
  destruct (setup_anywhere w) as (g & Hsetup & Hargs & _ & _ & _ & Hg & _).
  unfold notebook, notebook_with.
  rewrite <- (bind_assoc preamble (fun _ => cell18)).
  rewrite (bind_step _ _ _ _ _ Hsetup).
  pose proof (cell21_spec lib _ _ Hargs) as H21. rewrite Hfail in H21.
  rewrite (bind_fail _ _ _ _ _ H21). cbn [fst snd globals].
  split; [ reflexivity | ].
  rewrite Hg. exact Hres.
Qed.

Lemma earlier_result_survives_failed_rerun_witness :
  globals (run sample_lib).2 !! "result" = Some (VResult (sample_result 10)) /\
  returned (failing_lib notebook_call) = inl (LibraryError "optimisation failed") /\
  globals (notebook failing_lib (run sample_lib).2).2 !! "result"
  = Some (VResult (sample_result 10)).
Proof.
  assert (Hres : globals (run sample_lib).2 !! "result"
                 = Some (VResult (sample_result 10)))
    by exact (run_result_bound sample_lib (sample_result 10) eq_refl).
  split; [ exact Hres | ]. split; [ reflexivity | ].
  exact (proj2 (earlier_result_survives_failed_rerun failing_lib _ _ _ Hres eq_refl)).
Defined.

(** * Names shadowed in the kernel *)

Lemma plain_is_no_module v m : plain v = true -> v <> VHandle (HModule m).
Proof. intros Hv ->. discriminate Hv. Qed.

Lemma plain_is_no_print v : plain v = true -> is_builtin_print v = false.
Proof. destruct v; try discriminate; reflexivity. Qed.

Lemma print_shadowed tpl args v w :
  globals w !! "print" = Some v -> plain v = true ->
  print tpl args w = (inl TypeError, w).
Proof.
  intros Hp Hv. unfold print. rewrite Hp, (plain_is_no_print v Hv). reflexivity.
Qed.

(** X15: in a kernel where [print] has been bound to plain data, the
    report cell still reports the statistics and reads the final
    evolution, then raises [TypeError] at its first [print]: nothing of
    the summary is printed. *)
Theorem shadowed_print_stops_the_report w r v :
  globals w !! "result" = Some (VResult r) ->
  globals w !! "print" = Some v ->
  plain v = true ->
  cell24 w
  = (inl TypeError,
     mkWorld (globals w)
             (trace w ++ [EvGetAttr "stats"; EvReport (stats r);
                          EvGetAttr "evo_full_final"])).
Proof.
  intros Hr Hp Hv. unfold cell24.
  do 3 exec1.
  erewrite bind_fail by (apply (print_shadowed _ _ v); [ lookup_now | exact Hv ]).
  rewrite <- !app_assoc. reflexivity.
Qed.

(** The kernel a run leaves, with [print = 0] typed into it. *)
Lemma shadowed_print_stops_the_report_witness :
  prints (trace (cell24 (mkWorld (<["print" := VInt 0]> (globals (run sample_lib).2)) [])).2)
  = [].
Proof.
  assert (Hr : globals (mkWorld (<["print" := VInt 0]> (globals (run sample_lib).2)) [])
               !! "result" = Some (VResult (sample_result 10))).
  { cbn [globals]. rewrite lookup_insert_ne by done.
    exact (run_result_bound sample_lib (sample_result 10) eq_refl). }
  rewrite (shadowed_print_stops_the_report _ (sample_result 10) (VInt 0) Hr
             (lookup_insert_eq _ _ _) eq_refl).
  reflexivity.
Defined.

(** X16: in a kernel where [plt] has been bound to plain data, the
    plotting cell raises [AttributeError] at [plt.figure] and does
    nothing: no figure is created and no name is bound. *)
Theorem shadowed_plt_stops_the_plots w v :
  globals w !! "plt" = Some v ->
  plain v = true ->
  cell27 w = (inl (AttributeError "figure"), w).
Proof.
  intros Hp Hv. unfold cell27.
  apply bind_fail.
  apply (module_attr_other _ _ _ v); [ exact Hp | apply plain_is_no_module, Hv ].
Qed.

Lemma shadowed_plt_stops_the_plots_witness :
  cell27 (mkWorld (<["plt" := VInt 5]> ∅) [])
  = (inl (AttributeError "figure"), mkWorld (<["plt" := VInt 5]> ∅) []).
Proof.
  exact (shadowed_plt_stops_the_plots _ (VInt 5) (lookup_insert_eq _ _ _) eq_refl).
Defined.
